(** * PandasAzureWriter: flat, partitioned and chunked Parquet layouts

    A shallow embedding of
    [helioscta_dash/gas/pricing/term_bible/pandas_azure_writer.py]
    and of the blob client it drives, with the layout properties of the
    columnar object store adapter proved over it; then of its callers
    [_basic_write] and [_basic_read], and of the blob names that
    [AzureBlobStorageClient] of [utils/azure_blob_storage_utils.py]
    uploads under.

    Conventions of the embedding:
    - a DataFrame is its ordered column labels and its rows (row major);
      the index is not modelled, since every write passes [index=False]
      and every concatenation passes [ignore_index=True];
    - the container is a finite map from blob names to blob contents and
      is threaded through every method; an exception leaves the container
      as it was when the exception was raised;
    - pyarrow's Parquet encoder and decoder are an interface
      (part of [Runtime]) with the contract of the Columnar Codec on
      Tables; a frame with rows and no columns (pandas stores it without
      its rows) and a column that mixes integers and strings (pyarrow
      refuses it) are not Tables;
    - a cell is a missing value, an integer or a string; floats,
      booleans and timestamps are not modelled, so a column holds
      integers only (int64), or strings and missing values (object): an
      integer column with a missing value would be float64 in pandas
      ([Pd.typed] says that the columns of a frame are of these kinds);
    - the temporary file of a write is the encoded blob itself;
    - transport failures of the storage service are not modelled. *)

From Stdlib Require Import ZArith Ascii String List Lia Bool.
From Stdlib Require Import DecimalString DecimalN DecimalZ.
From stdpp Require Import gmap strings list sorting.

Local Open Scope Z_scope.

(** ** Python built-ins used by the writer *)

Module Py.

(** [s.endswith(suffix)] *)
Definition endswith (s suffix : string) : bool :=
  let n := String.length s in
  let m := String.length suffix in
  if (m <=? n)%nat
  then String.eqb (String.substring (n - m) m s) suffix
  else false.

(** [s.startswith(p)] *)
Definition startswith (s p : string) : bool := String.prefix p s.

(** [s.rsplit(sep, 1)] for a one-character separator: [None] when the
    separator does not occur (Python then returns a one-element list). *)
Fixpoint rsplit1 (sep : ascii) (s : string) : option (string * string) :=
  match s with
  | EmptyString => None
  | String a s' =>
      match rsplit1 sep s' with
      | Some (h, t) => Some (String a h, t)
      | None => if Ascii.eqb a sep then Some (EmptyString, s') else None
      end
  end.

(** [str(i)] for an integer *)
Definition str_int (i : Z) : string := NilZero.string_of_int (Z.to_int i).

(** [str(i)] for a non-negative integer, through its decimal digits *)
Definition digits (i : Z) : Decimal.uint := N.to_uint (Z.to_N i).

(** [n] leading zero digits *)
Fixpoint zeros (n : nat) (d : Decimal.uint) : Decimal.uint :=
  match n with
  | O => d
  | S n' => Decimal.D0 (zeros n' d)
  end.

(** [f"{i:05d}"] for [0 <= i]: the decimal digits, zero padded on the
    left to a width of at least five characters. *)
Definition fmt_05d (i : Z) : string :=
  let d := digits i in
  NilZero.string_of_uint (zeros (5 - Decimal.nb_digits d) d).

(** The bounds of the slice [l[start:stop]] of a sequence of length [n]:
    a negative index counts from the end, and both are clipped. *)
Definition slice_index (n i : Z) : Z :=
  if i <? 0 then Z.max 0 (i + n) else Z.min i n.

Definition slice {A} (l : list A) (start stop : Z) : list A :=
  let n := Z.of_nat (length l) in
  let a := slice_index n start in
  let b := slice_index n stop in
  take (Z.to_nat (b - a)) (drop (Z.to_nat a) l).

(** [range(n)] *)
Definition range (n : Z) : list Z := seqZ 0 n.

(** [sep.join(parts)] *)
Fixpoint join (sep : string) (parts : list string) : string :=
  match parts with
  | [] => ""
  | [p] => p
  | p :: ps => p +:+ sep +:+ join sep ps
  end.

(** [sorted(names)] on strings: code-point lexicographic order *)
Definition sorted (names : list string) : list string :=
  merge_sort String.le names.

(** [s.rstrip(c)] for one character: the trailing occurrences are removed. *)
Fixpoint rstrip (c : ascii) (s : string) : string :=
  match s with
  | EmptyString => EmptyString
  | String a s' =>
      match rstrip c s' with
      | EmptyString => if Ascii.eqb a c then EmptyString else String a EmptyString
      | t => String a t
      end
  end.

(** [s.split(sep)] for a one-character separator: never an empty list. *)
Fixpoint split (sep : ascii) (s : string) : list string :=
  match s with
  | EmptyString => [EmptyString]
  | String a s' =>
      if Ascii.eqb a sep then EmptyString :: split sep s'
      else match split sep s' with
           | h :: t => String a h :: t
           | [] => [String a EmptyString]
           end
  end.

(** [c in s] for one character *)
Fixpoint contains (c : ascii) (s : string) : bool :=
  match s with
  | EmptyString => false
  | String a s' => Ascii.eqb a c || contains c s'
  end.

(** [s.split(sep, 1)] for a one-character separator: [None] when the
    separator does not occur (Python then returns a one-element list). *)
Fixpoint split1 (sep : ascii) (s : string) : option (string * string) :=
  match s with
  | EmptyString => None
  | String a s' =>
      if Ascii.eqb a sep then Some (EmptyString, s')
      else match split1 sep s' with
           | Some (h, t) => Some (String a h, t)
           | None => None
           end
  end.

(** [a or b] on optional strings: [None] and the empty string are falsy. *)
Definition or_else (a : option string) (b : string) : string :=
  match a with
  | Some s => if String.eqb s "" then b else s
  | None => b
  end.

End Py.

(** ** Exceptions and the effect of a method on the container *)

Inductive exn : Type :=
  | ValueError (msg : string)
  | KeyError (label : string)
  | ZeroDivisionError
  | ResourceExistsError (blob_name : string)
  | ResourceNotFoundError (blob_name : string)
  | ArrowInvalid
  | ArrowNotImplementedError (compression : string).


Inductive result (A : Type) : Type :=
  | Ok (a : A)
  | Raise (e : exn).
Arguments Ok {A} a.
Arguments Raise {A} e.

(** ** The pandas operations used by the writer *)

Module Pd.

(** A cell: a missing value ([NaN]/[None]), an integer or a string. *)
Inductive value : Type :=
  | VNull
  | VInt (z : Z)
  | VStr (s : string).

#[global] Instance value_eq_dec : EqDecision value.
Proof. solve_decision. Defined.

Record DataFrame : Type := mkDataFrame {
  columns : list string;
  rows : list (list value)
}.

#[global] Instance DataFrame_eq_dec : EqDecision DataFrame.
Proof. solve_decision. Defined.

(** Labels are unique and every row has one cell per column. *)
Definition wf (df : DataFrame) : Prop :=
  NoDup (columns df) ∧ Forall (λ r, length r = length (columns df)) (rows df).

(** The kinds of column: integers only (int64), or strings and missing
    values (object). *)
Definition is_int (v : value) : bool :=
  match v with
  | VInt _ => true
  | _ => false
  end.

Definition uniform (cells : list value) : bool :=
  forallb is_int cells || forallb (λ v, negb (is_int v)) cells.

(** [len(df)] *)
Definition len (df : DataFrame) : Z := Z.of_nat (length (rows df)).

(** [df.iloc[start:stop]] *)
Definition iloc (df : DataFrame) (start stop : Z) : DataFrame :=
  mkDataFrame (columns df) (Py.slice (rows df) start stop).

(** The cell of a row under a label ([NaN] when the label is absent). *)
Fixpoint cell (cols : list string) (row : list value) (c : string) : value :=
  match cols, row with
  | c' :: cols', v :: row' => if decide (c = c') then v else cell cols' row' c
  | _, _ => VNull
  end.

(** The cells of a row that are not under one of the labels [drop]. *)
Fixpoint drop_cells (cols : list string) (row : list value) (drop : list string)
  : list value :=
  match cols, row with
  | c :: cols', v :: row' =>
      if decide (c ∈ drop) then drop_cells cols' row' drop
      else v :: drop_cells cols' row' drop
  | _, _ => []
  end.

(** [df.drop(columns=labels)]: a label that is not a column is a
    [KeyError]. *)
Definition drop_columns (df : DataFrame) (labels : list string) : result DataFrame :=
  match List.find (λ c, bool_decide (c ∉ columns df)) labels with
  | Some c => Raise (KeyError c)
  | None =>
      Ok (mkDataFrame
            (List.filter (λ c, bool_decide (c ∉ labels)) (columns df))
            (map (λ r, drop_cells (columns df) r labels) (rows df)))
  end.

(** [pd.concat(dfs, ignore_index=True)]: the columns are the union of the
    frames' columns in order of first appearance, every row is re-aligned
    to them (a missing cell is [NaN]), and the rows follow each other in
    the order of the frames. *)
Definition union_columns (dfs : list DataFrame) : list string :=
  foldl (λ acc df, acc ++ List.filter (λ c, bool_decide (c ∉ acc)) (columns df))
        [] dfs.

Definition reindex (new_cols cols : list string) (row : list value) : list value :=
  map (cell cols row) new_cols.

Definition concat (dfs : list DataFrame) : result DataFrame :=
  match dfs with
  | [] => Raise (ValueError "No objects to concatenate")
  | _ =>
      let cols := union_columns dfs in
      Ok (mkDataFrame cols
            (flat_map (λ df, map (reindex cols (columns df)) (rows df)) dfs))
  end.

(** Every column is of one kind. *)
Definition typed (df : DataFrame) : Prop :=
  Forall (λ c, uniform (map (λ r, cell (columns df) r c) (rows df)) = true)
         (columns df).

(** [f"{val}"] *)
Definition str (v : value) : string :=
  match v with
  | VNull => "nan"
  | VInt z => Py.str_int z
  | VStr s => s
  end.

(** *** groupby *)

(** The order in which group keys are sorted: integers by value, strings
    by code point, integers before strings, missing values last. *)
Definition value_compare (a b : value) : comparison :=
  match a, b with
  | VInt x, VInt y => Z.compare x y
  | VInt _, _ => Lt
  | VStr _, VInt _ => Gt
  | VStr s, VStr t => String.compare s t
  | VStr _, VNull => Lt
  | VNull, VNull => Eq
  | VNull, _ => Gt
  end.

(** Keys of several columns are compared as tuples. *)
Fixpoint key_compare (k1 k2 : list value) : comparison :=
  match k1, k2 with
  | [], [] => Eq
  | [], _ :: _ => Lt
  | _ :: _, [] => Gt
  | a :: k1', b :: k2' =>
      match value_compare a b with
      | Eq => key_compare k1' k2'
      | c => c
      end
  end.

Definition key_lt (k1 k2 : list value) : Prop := key_compare k1 k2 = Lt.

(** The key of a row: its cells under the grouping labels. *)
Definition row_key (cols by_ : list string) (row : list value) : list value :=
  map (cell cols row) by_.

Definition has_null (k : list value) : bool :=
  existsb (λ v, bool_decide (v = VNull)) k.

(** The sorted list of distinct keys, built by insertion. *)
Fixpoint insert_key (k : list value) (ks : list (list value)) : list (list value) :=
  match ks with
  | [] => [k]
  | k' :: ks' =>
      match key_compare k k' with
      | Lt => k :: ks
      | Eq => ks
      | Gt => k' :: insert_key k ks'
      end
  end.

Definition sorted_keys (keys : list (list value)) : list (list value) :=
  foldr insert_key [] keys.

(** What iterating over a [groupby] yields as the name of a group: a
    tuple, or a scalar (older pandas, one grouping label). *)
Inductive group_name : Type :=
  | Scalar (v : value)
  | Tuple (vs : list value).

Definition group_name_of (scalar_names : bool) (k : list value) : group_name :=
  match k with
  | [v] => if scalar_names then Scalar v else Tuple k
  | _ => Tuple k
  end.

(** [df.groupby(by)], iterated: with the defaults [sort=True] and
    [dropna=True], the groups come in ascending order of their keys, a
    row with a missing value in its key belongs to no group, and the rows
    of a group keep their order. An empty [by] on a frame with rows is a
    [ValueError]. *)
Definition group_keys (df : DataFrame) (by_ : list string) : list (list value) :=
  sorted_keys
    (List.filter (λ k, negb (has_null k))
       (map (row_key (columns df) by_) (rows df))).

Definition group_rows (df : DataFrame) (by_ : list string) (k : list value)
  : list (list value) :=
  List.filter (λ r, bool_decide (row_key (columns df) by_ r = k)) (rows df).

Definition groupby (scalar_names : bool) (df : DataFrame) (by_ : list string)
  : result (list (group_name * DataFrame)) :=
  match by_, rows df with
  | [], _ :: _ => Raise (ValueError "No group keys passed!")
  | _, _ =>
      Ok (map (λ k, (group_name_of scalar_names k,
                     mkDataFrame (columns df) (group_rows df by_ k)))
              (group_keys df by_))
  end.

(** [df[key] = value] for a scalar: the column [key] is overwritten in
    every row when it exists, and added as the last column otherwise. *)
Fixpoint set_cells (cols : list string) (row : list value) (key : string)
    (v : value) : list value :=
  match cols, row with
  | c :: cols', x :: row' =>
      (if decide (c = key) then v else x) :: set_cells cols' row' key v
  | _, _ => row
  end.

Definition set_column (df : DataFrame) (key : string) (v : value) : DataFrame :=
  if decide (key ∈ columns df)
  then mkDataFrame (columns df) (map (λ r, set_cells (columns df) r key v) (rows df))
  else mkDataFrame (columns df ++ [key]) (map (λ r, r ++ [v]) (rows df)).

End Pd.

(** ** The collaborators of the writer *)

(** The compression names the writer documents. *)
Definition supported_compression : list string :=
  ["snappy"; "gzip"; "brotli"; "lz4"; "zstd"; "none"].

(** What the writer takes from its environment: the Parquet encoder and
    decoder of pandas/pyarrow, the order in which the storage service lists
    blobs, and whether this pandas names the groups of a one-label
    [groupby] by scalars. The two laws are the contract of the Columnar
    Codec on Tables: they are not pyarrow's behaviour on a frame with rows
    and no columns, or on a column that mixes integers and strings. *)
Class Runtime : Type := {
  blob : Type;
  row_filter : Type;
  (** [df.to_parquet(file, engine=, compression=, index=False)] *)
  to_parquet : Pd.DataFrame → string → string → option blob;
  (** [pd.read_parquet(bytes, engine=, columns=, filters=)] *)
  pd_read_parquet :
    blob → string → option (list string) → option row_filter → option Pd.DataFrame;
  to_parquet_supported df engine compression :
    compression ∈ supported_compression →
    is_Some (to_parquet df engine compression);
  read_to_parquet df engine compression b engine' :
    to_parquet df engine compression = Some b →
    pd_read_parquet b engine' None None = Some df;
  (** the order of a listing *)
  listing : list string → list string;
  listing_perm names : listing names ≡ₚ names;
  scalar_group_names : bool
}.

Section Writer.
Context `{RT : Runtime}.

(** A method: it may change the container, and returns or raises. *)
Definition io (A : Type) : Type := gmap string blob → result A * gmap string blob.

Definition ret {A} (a : A) : io A := λ st, (Ok a, st).
Definition raise {A} (e : exn) : io A := λ st, (Raise e, st).
Definition bind {A B} (m : io A) (k : A → io B) : io B :=
  λ st, match m st with
        | (Ok a, st') => k a st'
        | (Raise e, st') => (Raise e, st')
        end.
Definition lift {A} (r : result A) : io A := λ st, (r, st).

Notation "'let!' x ':=' m 'in' k" := (bind m (λ x, k))
  (at level 10, x pattern, m at level 100, k at level 200).

(** [out = []; for x in xs: out.append(body(x))] *)
Fixpoint for_each {A B} (xs : list A) (body : A → io B) : io (list B) :=
  match xs with
  | [] => ret []
  | x :: xs' =>
      let! y := body x in
      let! ys := for_each xs' body in
      ret (y :: ys)
  end.

(** *** The blob client *)

Record PandasAzureWriter : Type := {
  storage_account : string;
  container : string
}.

(** Modelled from the spec: [AzureChunkStorageClient] (imported from
    [helioscta_python], which is not part of this repository's sources),
    after the Object Store Client contract and the sibling
    [AzureBlobStorageClient] of [utils/azure_blob_storage_utils.py]. *)
Definition get_blob_url (self : PandasAzureWriter) (blob_name : string) : string :=
  "https://" +:+ storage_account self +:+ ".blob.core.windows.net/"
    +:+ container self +:+ "/" +:+ blob_name.

(** Modelled from the spec: upload of [AzureChunkStorageClient]; without
    [overwrite] an existing blob is a conflict. *)
Definition upload_file (self : PandasAzureWriter) (data : blob)
    (blob_name : string) (overwrite : bool) : io string :=
  λ st,
    match st !! blob_name with
    | Some _ =>
        if overwrite
        then (Ok (get_blob_url self blob_name), <[blob_name := data]> st)
        else (Raise (ResourceExistsError blob_name), st)
    | None => (Ok (get_blob_url self blob_name), <[blob_name := data]> st)
    end.

(** Modelled from the spec: download of [AzureChunkStorageClient]. *)
Definition download_blob (blob_name : string) : io blob :=
  λ st,
    match st !! blob_name with
    | Some b => (Ok b, st)
    | None => (Raise (ResourceNotFoundError blob_name), st)
    end.

(** Modelled from the spec: exists of [AzureChunkStorageClient]. *)
Definition blob_exists (blob_name : string) : io bool :=
  λ st, (Ok (bool_decide (is_Some (st !! blob_name))), st).

(** Modelled from the spec: list of [AzureChunkStorageClient]. *)
Definition list_blobs (name_starts_with : string) : io (list string) :=
  λ st,
    (Ok (List.filter (λ b, Py.startswith b name_starts_with)
           (listing (map_to_list st).*1)), st).

(** *** [PandasAzureWriter] *)

(** The first step of [write_parquet] ("Ensure .parquet extension"). *)
Definition ensure_extension (blob_name : string) : string :=
  if negb (Py.endswith blob_name ".parquet")
  then blob_name +:+ ".parquet" else blob_name.

(** [write_parquet]; [now] is
    [datetime.now().strftime('%Y%m%d_%H%M%S')]. *)
Definition write_parquet (self : PandasAzureWriter) (df : Pd.DataFrame)
    (blob_name compression : string) (overwrite include_timestamp : bool)
    (engine now : string) : io string :=
  let blob_name := ensure_extension blob_name in
  let! blob_name :=
    (if include_timestamp then
       match Py.rsplit1 "." blob_name with
       | Some (name, ext) => ret (name +:+ "_" +:+ now +:+ "." +:+ ext)
       | None => raise (ValueError "not enough values to unpack (expected 2, got 1)")
       end
     else ret blob_name) in
  let! temp_file :=
    (match to_parquet df engine compression with
     | Some b => ret b
     | None => raise (ArrowNotImplementedError compression)
     end) in
  upload_file self temp_file blob_name overwrite.

(** [read_parquet] *)
Definition read_parquet (blob_name : string) (columns : option (list string))
    (filters : option row_filter) (engine : string) : io Pd.DataFrame :=
  let! blob_data := download_blob blob_name in
  match pd_read_parquet blob_data engine columns filters with
  | Some df => ret df
  | None => raise ArrowInvalid
  end.

(** The path segments of a group: [zip] over a tuple, the first label
    for a scalar. *)
Definition partition_path_parts (partition_cols : list string)
    (partition_values : Pd.group_name) : list string :=
  match partition_values with
  | Pd.Tuple vs =>
      map (λ '(col, val), col +:+ "=" +:+ Pd.str val) (zip partition_cols vs)
  | Pd.Scalar v =>
      match partition_cols with
      | col :: _ => [col +:+ "=" +:+ Pd.str v]
      | [] => []
      end
  end.

Definition partition_blob_name (base_blob_path : string)
    (partition_cols : list string) (partition_values : Pd.group_name) : string :=
  base_blob_path +:+ "/"
    +:+ Py.join "/" (partition_path_parts partition_cols partition_values)
    +:+ "/data.parquet".

(** [write_parquet_partitioned] *)
Definition write_parquet_partitioned (self : PandasAzureWriter)
    (df : Pd.DataFrame) (base_blob_path : string) (partition_cols : list string)
    (compression : string) (overwrite : bool) (engine : string)
  : io (list string) :=
  match List.find (λ col, bool_decide (col ∉ Pd.columns df)) partition_cols with
  | Some col =>
      raise (ValueError ("Partition column '" +:+ col +:+ "' not found in DataFrame"))
  | None =>
      let! grouped := lift (Pd.groupby scalar_group_names df partition_cols) in
      for_each grouped (λ '(partition_values, group_df),
        let blob_name :=
          partition_blob_name base_blob_path partition_cols partition_values in
        let! data_to_write := lift (Pd.drop_columns group_df partition_cols) in
        write_parquet self data_to_write blob_name compression overwrite false
          engine "")
  end.

Definition chunk_blob_name (base_blob_path : string) (i : Z) : string :=
  base_blob_path +:+ "/chunk_" +:+ Py.fmt_05d i +:+ ".parquet".

(** [write_parquet_chunked]; [//] is the floor division of Python, and a
    zero divisor raises. *)
Definition write_parquet_chunked (self : PandasAzureWriter)
    (df : Pd.DataFrame) (base_blob_path : string) (chunk_size : Z)
    (compression : string) (overwrite : bool) (engine : string)
  : io (list string) :=
  if decide (chunk_size = 0) then raise ZeroDivisionError
  else
    let num_chunks := (Pd.len df + chunk_size - 1) `div` chunk_size in
    for_each (Py.range num_chunks) (λ i,
      let start_idx := i * chunk_size in
      let end_idx := Z.min ((i + 1) * chunk_size) (Pd.len df) in
      let chunk_df := Pd.iloc df start_idx end_idx in
      let blob_name := chunk_blob_name base_blob_path i in
      write_parquet self chunk_df blob_name compression overwrite false
        engine "").

(** [append_parquet] *)
Definition append_parquet (self : PandasAzureWriter) (df : Pd.DataFrame)
    (blob_name compression engine : string) : io string :=
  let! found := blob_exists blob_name in
  let! combined_df :=
    (if found : bool then
       let! existing_df := read_parquet blob_name None None "pyarrow" in
       lift (Pd.concat [existing_df; df])
     else ret df) in
  write_parquet self combined_df blob_name compression true false engine "".

(** [read_parquet_chunked] *)
Definition read_parquet_chunked (base_blob_path : string)
    (process_func : option (Pd.DataFrame → result Pd.DataFrame))
  : io Pd.DataFrame :=
  let! all_blobs := list_blobs base_blob_path in
  let chunk_blobs :=
    Py.sorted (List.filter (λ b, Py.endswith b ".parquet") all_blobs) in
  match chunk_blobs with
  | [] => raise (ValueError ("No parquet files found at: " +:+ base_blob_path))
  | _ =>
      let! dfs := for_each chunk_blobs (λ blob,
        let! df := read_parquet blob None None "pyarrow" in
        match process_func with
        | Some f => lift (f df)
        | None => ret df
        end) in
      lift (Pd.concat dfs)
  end.

(** The inner loop of [read_parquet_partitioned]: every path segment with
    an ["="] sets the column named before the first ["="] to the text behind
    it. *)
Definition add_partition_columns (df : Pd.DataFrame) (path_parts : list string)
  : result Pd.DataFrame :=
  foldl (λ acc part,
           match acc with
           | Ok df =>
               if Py.contains "=" part then
                 match Py.split1 "=" part with
                 | Some (key, value) => Ok (Pd.set_column df key (Pd.VStr value))
                 | None =>
                     Raise (ValueError "not enough values to unpack (expected 2, got 1)")
                 end
               else Ok df
           | Raise e => Raise e
           end)
        (Ok df) path_parts.

(** The prefix that [read_parquet_partitioned] searches. *)
Definition search_prefix (base_blob_path : string)
    (partition_filter : option (list (string * string))) : string :=
  let search_prefix := Py.rstrip "/" base_blob_path in
  match partition_filter with
  | Some items =>
      foldl (λ prefix '(key, value), prefix +:+ "/" +:+ key +:+ "=" +:+ value)
            search_prefix items
  | None => search_prefix
  end.

(** [read_parquet_partitioned]; the filter is a dict in insertion order. *)
Definition read_parquet_partitioned (base_blob_path : string)
    (partition_filter : option (list (string * string))) : io Pd.DataFrame :=
  let search_prefix := search_prefix base_blob_path partition_filter in
  let! all_blobs := list_blobs search_prefix in
  let parquet_blobs := List.filter (λ b, Py.endswith b ".parquet") all_blobs in
  match parquet_blobs with
  | [] => raise (ValueError ("No parquet files found at: " +:+ search_prefix))
  | _ =>
      let! dfs := for_each parquet_blobs (λ blob,
        let! df := read_parquet blob None None "pyarrow" in
        lift (add_partition_columns df (Py.split "/" blob))) in
      lift (Pd.concat dfs)
  end.

(** Modelled from the spec: delete of [AzureChunkStorageClient], after
    [AzureBlobStorageClient.delete_blob]: a missing blob is an error of the
    service, which is raised again. *)
Definition delete_blob (blob_name : string) : io bool :=
  λ st,
    match st !! blob_name with
    | Some _ => (Ok true, delete blob_name st)
    | None => (Raise (ResourceNotFoundError blob_name), st)
    end.



End Writer.

(** ** [AzureBlobStorageClient] of [utils/azure_blob_storage_utils.py] *)

Module AzureBlob.

Record AzureBlobStorageClient : Type := {
  connection_string : string;
  storage_account_name : string;
  container_name : string
}.

Section Client.

(** The storage account behind the connection string, and the call
    [BlobClient.upload_blob(data, overwrite=, content_settings=, metadata=)]
    of the SDK on the blob of a container; its errors are [AzureError]s. *)
Variable account : Type.
Variable sdk_upload_blob :
  string → string → string → bool → option string →
  option (list (string * string)) → account → result unit * account.

(** [df.to_csv(index=False, **csv_kwargs)] *)
Variable csv_kwargs : Type.
Variable to_csv : Pd.DataFrame → csv_kwargs → string.

(** [get_blob_url] *)
Definition get_blob_url (self : AzureBlobStorageClient) (blob_name : string)
    (container_name : option string) : string :=
  let container := Py.or_else container_name (AzureBlob.container_name self) in
  "https://" +:+ storage_account_name self +:+ ".blob.core.windows.net/"
    +:+ container +:+ "/" +:+ blob_name.

(** [upload_blob]; [get_blob_client] resolves the container once more, and
    an [AzureError] is logged and raised again. *)
Definition upload_blob (self : AzureBlobStorageClient) (data blob_name : string)
    (container_name content_type : option string) (overwrite : bool)
    (metadata : option (list (string * string)))
  : account → result string * account :=
  λ st,
    let container := Py.or_else container_name (AzureBlob.container_name self) in
    let blob_client_container :=
      Py.or_else (Some container) (AzureBlob.container_name self) in
    let content_settings :=
      match content_type with
      | Some t => if String.eqb t "" then None else Some t
      | None => None
      end in
    match sdk_upload_blob blob_client_container blob_name data overwrite
            content_settings metadata st with
    | (Ok _, st') =>
        (Ok ("https://" +:+ storage_account_name self
               +:+ ".blob.core.windows.net/" +:+ container +:+ "/"
               +:+ blob_name), st')
    | (Raise e, st') => (Raise e, st')
    end.

(** The [include_timestamp] block of [upload_dataframe_csv],
    [upload_dataframe_excel] and [upload_html], which differ in the
    extension [default_ext] used for a name without a dot; [now] is
    [datetime.now().strftime('%Y%m%d_%H%M%S')]. *)
Definition with_timestamp (blob_name default_ext now : string) : result string :=
  match (if Py.contains "." blob_name
         then match Py.rsplit1 "." blob_name with
              | Some (name, ext) => Ok (name, ext)
              | None =>
                  Raise (ValueError "not enough values to unpack (expected 2, got 1)")
              end
         else Ok (blob_name, default_ext)) with
  | Ok (name, ext) => Ok (name +:+ "_" +:+ now +:+ "." +:+ ext)
  | Raise e => Raise e
  end.

(** [upload_dataframe_csv] *)
Definition upload_dataframe_csv (self : AzureBlobStorageClient)
    (df : Pd.DataFrame) (blob_name : string) (container_name : option string)
    (overwrite include_timestamp : bool) (now : string) (kwargs : csv_kwargs)
  : account → result string * account :=
  λ st,
    match (if include_timestamp then with_timestamp blob_name "csv" now
           else Ok blob_name) with
    | Ok blob_name =>
        let blob_name :=
          if negb (Py.endswith blob_name ".csv")
          then blob_name +:+ ".csv" else blob_name in
        let csv_data := to_csv df kwargs in
        upload_blob self csv_data blob_name container_name (Some "text/csv")
          overwrite None st
    | Raise e => (Raise e, st)
    end.

(** [upload_html] *)
Definition upload_html (self : AzureBlobStorageClient)
    (html_content blob_name : string) (container_name : option string)
    (overwrite include_timestamp : bool) (now : string)
  : account → result string * account :=
  λ st,
    match (if include_timestamp then with_timestamp blob_name "html" now
           else Ok blob_name) with
    | Ok blob_name =>
        let blob_name :=
          if negb (Py.endswith blob_name ".html")
          then blob_name +:+ ".html" else blob_name in
        upload_blob self html_content blob_name container_name
          (Some "text/html") overwrite None st
    | Raise e => (Raise e, st)
    end.

End Client.

End AzureBlob.

(** ** The vocabulary of the properties *)

(** The rows at positions [a <= p < b]. *)
Definition rows_between {A} (l : list A) (a b : Z) : list A :=
  take (Z.to_nat (b - a)) (drop (Z.to_nat a) l).


(** A row of the table from a row of a partition blob and the values of
    the partition columns: the cells under partition labels are taken from
    the key, the others from the payload, in column order. *)
Fixpoint restore_cells (cols by_ : list string) (key payload : list Pd.value)
  : list Pd.value :=
  match cols with
  | [] => []
  | c :: cols' =>
      if decide (c ∈ by_) then Pd.cell by_ key c :: restore_cells cols' by_ key payload
      else match payload with
           | v :: payload' => v :: restore_cells cols' by_ key payload'
           | [] => []
           end
  end.

(** Whether, for [fuel] indices from [i] on, the padded rendering of an
    index is lexically below that of the next one, also with the extension
    behind them. *)
Fixpoint consecutive_from (fuel : nat) (i : Z) : bool :=
  match fuel with
  | O => true
  | S fuel' =>
      String.leb (Py.fmt_05d i +:+ ".parquet") (Py.fmt_05d (i + 1) +:+ ".parquet")
      && consecutive_from fuel' (i + 1)
  end.

(** A chunk index as the layout writes it: five decimal digits, padded
    with zeros on the left. *)
Definition digit (d : Z) : ascii := ascii_of_nat (48 + Z.to_nat d).

Definition five_digits (i : Z) : string :=
  String (digit ((i `div` 10000) `mod` 10))
    (String (digit ((i `div` 1000) `mod` 10))
       (String (digit ((i `div` 100) `mod` 10))
          (String (digit ((i `div` 10) `mod` 10))
             (String (digit (i `mod` 10)) EmptyString)))).

(** Whether, for [fuel] indices from [i] on, the code renders an index
    as these five digits. *)
Fixpoint five_digits_from (fuel : nat) (i : Z) : bool :=
  match fuel with
  | O => true
  | S fuel' =>
      String.eqb (Py.fmt_05d i) (five_digits i) && five_digits_from fuel' (i + 1)
  end.

(** Ascending order of partition values and of their combinations:
    integers by value, strings by character code, tuples by their first
    difference. *)
Inductive value_asc : Pd.value → Pd.value → Prop :=
  | asc_int x y : x < y → value_asc (Pd.VInt x) (Pd.VInt y)
  | asc_str s t : String.compare s t = Lt → value_asc (Pd.VStr s) (Pd.VStr t).

Inductive tuple_asc : list Pd.value → list Pd.value → Prop :=
  | asc_head a b k1 k2 : value_asc a b → tuple_asc (a :: k1) (b :: k2)
  | asc_tail a k1 k2 : tuple_asc k1 k2 → tuple_asc (a :: k1) (a :: k2).

(** Two values of one kind, none of them missing. *)
Definition same_kind (a b : Pd.value) : Prop :=
  Pd.is_int a = Pd.is_int b ∧ a ≠ Pd.VNull ∧ b ≠ Pd.VNull.

(** [k] is the combination of partition values of the row [r]: its cells
    at the positions of the partition columns. *)
Definition tuple_of (cols by_ : list string) (r k : list Pd.value) : Prop :=
  Forall2 (λ c v, ∃ i, cols !! i = Some c ∧ r !! i = Some v) by_ k.

(** The path segments of a key: [col=val] for each partition column. *)
Definition key_parts (by_ : list string) (k : list Pd.value) : list string :=
  map (λ '(col, val), col +:+ "=" +:+ Pd.str val) (zip by_ k).

(** A row as a partitioned read gives it back: its cells outside the
    partition columns, then the partition values as text. *)
Definition restored_row (cols by_ : list string) (r : list Pd.value)
  : list Pd.value :=
  Pd.drop_cells cols r by_ ++ map (λ c, Pd.VStr (Pd.str (Pd.cell cols r c))) by_.

Section Vocabulary.
Context `{RT : Runtime}.

(** The blob under [name] is a Parquet file of [df]. *)
Definition stored (st : gmap string blob) (name : string) (df : Pd.DataFrame) : Prop :=
  ∃ b, st !! name = Some b ∧ pd_read_parquet b "pyarrow" None None = Some df.

(** The container after an upload of the Parquet file of [df]. *)
Definition put (engine compression : string) (st : gmap string blob)
    (w : string * Pd.DataFrame) : gmap string blob :=
  match to_parquet w.2 engine compression with
  | Some b => <[w.1 := b]> st
  | None => st
  end.

(** The container after a sequence of uploads, in order. *)
Definition put_all (engine compression : string) (st : gmap string blob)
    (ws : list (string * Pd.DataFrame)) : gmap string blob :=
  foldl (put engine compression) st ws.

(** What a partitioned write uploads, group by group: the key, the blob
    name and the payload. *)
Definition partition_outputs (df : Pd.DataFrame) (base : string)
    (by_ : list string) : list (list Pd.value * (string * Pd.DataFrame)) :=
  (λ k, (k, (partition_blob_name base by_
               (Pd.group_name_of scalar_group_names k),
             Pd.mkDataFrame
               (List.filter (λ c, bool_decide (c ∉ by_)) (Pd.columns df))
               (map (λ r, Pd.drop_cells (Pd.columns df) r by_)
                    (Pd.group_rows df by_ k)))))
    <$> Pd.group_keys df by_.

(** Every row of the table is in the payload of one group, once: the
    rows of the payloads, with the partition values put back, are the rows
    of the table up to order. *)
Definition partition_exhaustive (df : Pd.DataFrame) (by_ : list string)
    (outs : list (list Pd.value * (string * Pd.DataFrame))) : Prop :=
  flat_map (λ o, map (restore_cells (Pd.columns df) by_ o.1) (Pd.rows o.2.2)) outs
  ≡ₚ Pd.rows df.

(** The blobs that [read_parquet_chunked] selects, as listed. *)
Definition matching_blobs (base : string) (st : gmap string blob) : list string :=
  List.filter (λ b, Py.endswith b ".parquet")
    (List.filter (λ b, Py.startswith b base) (listing (map_to_list st).*1)).

(** The order in which it reads them. *)
Definition consumed (base : string) (st : gmap string blob) : list string :=
  Py.sorted (matching_blobs base st).

End Vocabulary.

(** ** A concrete runtime, for running the writer *)

Module Demo.

(** A blob is either a Parquet file (here: the frame it encodes and its
    compression) or bytes that are not Parquet. *)
Inductive demo_blob : Type :=
  | Parquet (df : Pd.DataFrame) (compression : string)
  | Garbage.

Definition demo_to_parquet (df : Pd.DataFrame) (engine compression : string)
  : option demo_blob :=
  if bool_decide (compression ∈ supported_compression)
  then Some (Parquet df compression) else None.

Definition demo_read (b : demo_blob) (engine : string)
    (columns : option (list string)) (filters : option Empty_set)
  : option Pd.DataFrame :=
  match b, columns, filters with
  | Parquet df _, None, None => Some df
  | Parquet df _, Some cs, None =>
      if bool_decide (cs ⊆ Pd.columns df)
      then Some (Pd.mkDataFrame cs (map (Pd.reindex cs (Pd.columns df)) (Pd.rows df)))
      else None
  | _, _, _ => None
  end.

#[export] Program Instance runtime : Runtime := {|
  blob := demo_blob;
  row_filter := Empty_set;
  to_parquet := demo_to_parquet;
  pd_read_parquet := demo_read;
  listing := reverse;
  scalar_group_names := false
|}.
Next Obligation.
  intros df engine compression Hc. unfold demo_to_parquet.
  rewrite bool_decide_eq_true_2 by done. eauto.
Qed.
Next Obligation.
  intros df engine compression b engine'. unfold demo_to_parquet.
  case_bool_decide; [|done]. by intros [= <-].
Qed.
Next Obligation.
  intros names. apply reverse_Permutation.
Qed.

Definition writer : PandasAzureWriter :=
  {| storage_account := "acct"; container := "data" |}.

Definition table (cols : list string) (rs : list (list Pd.value)) : Pd.DataFrame :=
  Pd.mkDataFrame cols rs.

Definition years : Pd.DataFrame :=
  table ["year"; "month"; "v"]
    [ [Pd.VInt 2024; Pd.VInt 1; Pd.VInt 30];
      [Pd.VInt 2023; Pd.VInt 1; Pd.VInt 10];
      [Pd.VInt 2023; Pd.VInt 2; Pd.VInt 20] ].

Definition more_years : Pd.DataFrame :=
  table ["year"; "month"; "v"] [ [Pd.VInt 2025; Pd.VInt 1; Pd.VInt 40] ].

Definition no_rows : Pd.DataFrame := table ["a"] [].

(** One row has no year (an object column of strings). *)
Definition missing_year : Pd.DataFrame :=
  table ["year"; "v"]
    [ [Pd.VNull; Pd.VInt 10];
      [Pd.VStr "2023"; Pd.VInt 20] ].

(** Two rows whose partition values have slashes. *)
Definition slashes : Pd.DataFrame :=
  table ["a"; "b"; "v"]
    [ [Pd.VStr "1/b=2"; Pd.VStr "3"; Pd.VInt 10];
      [Pd.VStr "1"; Pd.VStr "2/b=3"; Pd.VInt 20] ].

(** A table of 100001 rows. *)
Definition long_table : Pd.DataFrame :=
  table ["a"] (replicate (Z.to_nat 100001) [Pd.VInt 0]).

(** A container with one blob, the Parquet file of [years]. *)
Definition with_years : gmap string (@blob runtime) :=
  {[ "t.parquet" := Parquet years "snappy" ]}.

(** A container where the name of the second chunk of ["base"] is taken. *)
Definition with_chunk_1 : gmap string (@blob runtime) :=
  {[ "base/chunk_00001.parquet" := Garbage ]}.

(** A storage account for [AzureBlobStorageClient]: the content of the
    blobs by container and name; an upload without [overwrite] onto a blob
    is a conflict. *)
Definition demo_account : Type := gmap (string * string) string.

Definition demo_upload_blob (container blob_name data : string)
    (overwrite : bool) (content_settings : option string)
    (metadata : option (list (string * string)))
  : demo_account → result unit * demo_account :=
  λ st,
    match st !! (container, blob_name) with
    | Some _ =>
        if overwrite then (Ok tt, <[(container, blob_name) := data]> st)
        else (Raise (ResourceExistsError blob_name), st)
    | None => (Ok tt, <[(container, blob_name) := data]> st)
    end.

(** The header line only. *)
Definition demo_to_csv (df : Pd.DataFrame) (kwargs : unit) : string :=
  Py.join "," (Pd.columns df).

Definition client : AzureBlob.AzureBlobStorageClient :=
  {| AzureBlob.connection_string := "";
     AzureBlob.storage_account_name := "acct";
     AzureBlob.container_name := "data" |}.

End Demo.


(** * Properties *)

(** ** Strings and formatting *)

Section PyFacts.

Lemma app_string_cons a (s t : string) : String a s +:+ t = String a (s +:+ t).
Proof. reflexivity. Qed.

Lemma length_app_string (s t : string) :
  String.length (s +:+ t) = (String.length s + String.length t)%nat.
Proof. induction s as [|a s IH]; simpl; [done|]. by rewrite IH. Qed.

Lemma substring_full (s : string) : String.substring 0 (String.length s) s = s.
Proof. induction s as [|a s IH]; simpl; [done|]. by rewrite IH. Qed.

Lemma substring_skip (s t : string) m :
  String.substring (String.length s) m (s +:+ t) = String.substring 0 m t.
Proof. induction s as [|a s IH]; simpl; [done|]. apply IH. Qed.

Lemma endswith_app (s suffix : string) : Py.endswith (s +:+ suffix) suffix = true.
Proof.
  unfold Py.endswith. rewrite length_app_string.
  rewrite (proj2 (Nat.leb_le _ _)) by lia.
  replace (String.length s + String.length suffix - String.length suffix)%nat
    with (String.length s) by lia.
  rewrite substring_skip, substring_full. apply String.eqb_refl.
Qed.

Lemma substring_split (s : string) (n : nat) :
  (n ≤ String.length s)%nat →
  s = String.substring 0 n s +:+ String.substring n (String.length s - n) s.
Proof.
  revert n. induction s as [|a s IH]; intros [|n] Hn; simpl in *; try lia.
  - done.
  - by rewrite substring_full.
  - rewrite app_string_cons. f_equal. apply IH. lia.
Qed.

Lemma endswith_inv (s suffix : string) :
  Py.endswith s suffix = true → ∃ x, s = x +:+ suffix.
Proof.
  unfold Py.endswith. destruct (Nat.leb_spec (String.length suffix) (String.length s))
    as [Hle|]; [|done].
  intros Heq%String.eqb_eq.
  exists (String.substring 0 (String.length s - String.length suffix) s).
  pose proof (substring_split s (String.length s - String.length suffix)) as Hs.
  replace (String.length s - (String.length s - String.length suffix))%nat
    with (String.length suffix) in Hs by lia.
  rewrite Heq in Hs. apply Hs. lia.
Qed.

Lemma startswith_app (p s : string) : Py.startswith (p +:+ s) p = true.
Proof.
  unfold Py.startswith. induction p as [|a p IH]; simpl.
  - by destruct s.
  - destruct (ascii_dec a a); [apply IH|done].
Qed.

Lemma app_string_assoc (s t u : string) : (s +:+ t) +:+ u = s +:+ t +:+ u.
Proof. induction s as [|a s IH]; [done|]. by rewrite !app_string_cons, IH. Qed.

Lemma app_string_inj_r (s t u : string) : s +:+ u = t +:+ u → s = t.
Proof.
  revert t. induction s as [|a s IH]; intros [|b t] H.
  - done.
  - apply (f_equal String.length) in H.
    rewrite !length_app_string in H. simpl in H. lia.
  - apply (f_equal String.length) in H.
    rewrite !length_app_string in H. simpl in H. lia.
  - rewrite !app_string_cons in H. injection H as -> H. f_equal. by apply IH.
Qed.

Lemma rsplit1_parquet (x : string) :
  Py.rsplit1 "." (x +:+ ".parquet") = Some (x, "parquet").
Proof.
  induction x as [|a x IH]; [done|].
  rewrite app_string_cons. simpl. by rewrite IH.
Qed.

End PyFacts.

Section FormatFacts.

Lemma of_uint_zeros n d : N.of_uint (Py.zeros n d) = N.of_uint d.
Proof. induction n as [|n IH]; simpl; [done|]. apply IH. Qed.

Lemma zeros_not_nil n d : d ≠ Decimal.Nil → Py.zeros n d ≠ Decimal.Nil.
Proof. by destruct n. Qed.

Lemma digits_not_nil i : Py.digits i ≠ Decimal.Nil.
Proof.
  unfold Py.digits. destruct (Z.to_N i) as [|p]; simpl; [done|].
  intros Hp. pose proof (DecimalPos.Unsigned.of_to p) as E.
  rewrite Hp in E. discriminate E.
Qed.

(** The chunk index can be read back from its rendering. *)
Lemma fmt_05d_inj i j : 0 ≤ i → 0 ≤ j → Py.fmt_05d i = Py.fmt_05d j → i = j.
Proof.
  intros Hi Hj E. unfold Py.fmt_05d in E.
  apply (f_equal NilZero.uint_of_string) in E.
  rewrite !NilZero.usu in E by (apply zeros_not_nil, digits_not_nil).
  injection E as E. apply (f_equal N.of_uint) in E.
  rewrite !of_uint_zeros in E. unfold Py.digits in E.
  rewrite !DecimalN.Unsigned.of_to in E. lia.
Qed.

Lemma compare_app_string (p a b : string) :
  String.compare (p +:+ a) (p +:+ b) = String.compare a b.
Proof.
  induction p as [|c p IH]; [done|].
  rewrite !app_string_cons. simpl.
  unfold Ascii.compare. by rewrite N.compare_refl.
Qed.

Lemma le_app_string (p a b : string) :
  String.le a b → String.le (p +:+ a) (p +:+ b).
Proof. unfold String.le, String.leb. by rewrite compare_app_string. Qed.

Lemma consecutive_from_spec fuel i j :
  consecutive_from fuel i = true →
  i ≤ j < i + Z.of_nat fuel →
  String.le (Py.fmt_05d j +:+ ".parquet") (Py.fmt_05d (j + 1) +:+ ".parquet").
Proof.
  revert i. induction fuel as [|fuel IH]; intros i H Hj; [lia|].
  simpl in H. apply andb_prop in H as [H1 H2].
  destruct (decide (j = i)) as [->|Hne].
  - unfold String.le. by apply Is_true_true.
  - apply (IH (i + 1)); [done|lia].
Qed.

Lemma consecutive_5_digits : consecutive_from (Z.to_nat 99999) 0 = true.
Proof. vm_compute. reflexivity. Qed.

Lemma fmt_05d_step i :
  0 ≤ i < 99999 →
  String.le (Py.fmt_05d i +:+ ".parquet") (Py.fmt_05d (i + 1) +:+ ".parquet").
Proof.
  intros Hi. apply (consecutive_from_spec _ 0 i consecutive_5_digits). lia.
Qed.

Lemma five_digits_from_spec fuel i j :
  five_digits_from fuel i = true →
  i ≤ j < i + Z.of_nat fuel →
  Py.fmt_05d j = five_digits j.
Proof.
  revert i. induction fuel as [|fuel IH]; intros i H Hj; [lia|].
  simpl in H. apply andb_prop in H as [H1 H2].
  destruct (decide (j = i)) as [->|Hne].
  - by apply String.eqb_eq.
  - apply (IH (i + 1)); [done|lia].
Qed.

Lemma five_digits_all : five_digits_from (Z.to_nat 100000) 0 = true.
Proof. vm_compute. reflexivity. Qed.

(** Below 100000 an index is rendered as its five decimal digits. *)
Lemma fmt_05d_five_digits i :
  0 ≤ i < 100000 → Py.fmt_05d i = five_digits i.
Proof.
  intros Hi. apply (five_digits_from_spec _ 0 i five_digits_all). lia.
Qed.

End FormatFacts.

(** ** Writes and their effect on the container *)

Section WriterFacts.
Context `{RT : Runtime}.

Lemma for_each_ext {A B} (xs : list A) (f g : A → io B) st :
  (∀ x st', x ∈ xs → f x st' = g x st') →
  for_each xs f st = for_each xs g st.
Proof.
  revert st. induction xs as [|x xs IH]; intros st H; [done|].
  simpl. unfold bind. rewrite (H x st) by left.
  destruct (g x st) as [[y|e] st']; [|done].
  rewrite IH; [done|]. intros x' st'' Hx'. apply H. by right.
Qed.

Lemma write_parquet_plain self df name compression overwrite engine now st :
  Py.endswith name ".parquet" = true →
  write_parquet self df name compression overwrite false engine now st =
    match to_parquet df engine compression with
    | Some b => upload_file self b name overwrite st
    | None => (Raise (ArrowNotImplementedError compression), st)
    end.
Proof.
  intros Hn. unfold write_parquet, ensure_extension. rewrite Hn. simpl.
  unfold bind, ret, raise.
  by destruct (to_parquet df engine compression).
Qed.

Lemma for_each_write_parquet {A} self (xs : list A) (name : A → string)
    (frame : A → Pd.DataFrame) compression overwrite engine st :
  (∀ x, x ∈ xs → Py.endswith (name x) ".parquet" = true) →
  compression ∈ supported_compression →
  (overwrite = true ∨
   (NoDup (name <$> xs) ∧ ∀ x, x ∈ xs → st !! name x = None)) →
  for_each xs
    (λ x, write_parquet self (frame x) (name x) compression overwrite false
            engine "") st
  = (Ok ((λ x, get_blob_url self (name x)) <$> xs),
     put_all engine compression st ((λ x, (name x, frame x)) <$> xs)).
Proof.
  intros Hext Hc. revert st.
  induction xs as [|x xs IH]; intros st How; [done|].
  simpl. unfold bind at 1.
  rewrite write_parquet_plain by (apply Hext; left).
  destruct (to_parquet_supported (frame x) engine compression Hc) as [b Hb].
  rewrite Hb.
  assert (upload_file self b (name x) overwrite st
          = (Ok (get_blob_url self (name x)), <[name x := b]> st)) as ->.
  { unfold upload_file. destruct How as [->|[_ Hfree]].
    - by destruct (st !! name x).
    - rewrite Hfree by left. done. }
  unfold bind. rewrite IH.
  - unfold put, ret. simpl. by rewrite Hb.
  - intros x' Hx'. apply Hext. by right.
  - destruct How as [->|[Hnd Hfree]]; [by left|right].
    rewrite fmap_cons in Hnd. apply NoDup_cons in Hnd as [Hnotin Hnd].
    split; [done|]. intros x' Hx'.
    rewrite lookup_insert_ne; [apply Hfree; by right|].
    intros Heq. apply Hnotin. rewrite Heq. apply list_elem_of_fmap. eauto.
Qed.

Lemma lookup_put_all_other engine compression st ws name :
  name ∉ ws.*1 → put_all engine compression st ws !! name = st !! name.
Proof.
  revert st. induction ws as [|[n df] ws IH]; intros st Hn; [done|].
  rewrite fmap_cons in Hn. apply not_elem_of_cons in Hn as [Hne Hn].
  simpl. rewrite IH by done. unfold put. simpl.
  destruct (to_parquet df engine compression); [|done].
  by rewrite lookup_insert_ne.
Qed.

Lemma lookup_put_all engine compression st ws name df :
  compression ∈ supported_compression →
  NoDup ws.*1 → (name, df) ∈ ws →
  stored (put_all engine compression st ws) name df.
Proof.
  intros Hc. revert st. induction ws as [|[n d] ws IH]; intros st Hnd Hin.
  { by apply elem_of_nil in Hin. }
  rewrite fmap_cons in Hnd. apply NoDup_cons in Hnd as [Hnotin Hnd].
  apply elem_of_cons in Hin as [[= -> ->]|Hin].
  - simpl. unfold stored. rewrite lookup_put_all_other by done.
    unfold put. simpl.
    destruct (to_parquet_supported d engine compression Hc) as [b Hb].
    rewrite Hb, lookup_insert_eq. exists b. split; [done|].
    by eapply read_to_parquet.
  - simpl. by apply IH.
Qed.

End WriterFacts.

(** ** Chunks *)

Section ChunkFacts.

Lemma chunk_blob_name_ext base i :
  Py.endswith (chunk_blob_name base i) ".parquet" = true.
Proof.
  unfold chunk_blob_name.
  rewrite <- (app_string_assoc "/chunk_" (Py.fmt_05d i) ".parquet").
  rewrite <- (app_string_assoc base _ ".parquet").
  apply endswith_app.
Qed.

Lemma chunk_blob_name_prefix base i :
  Py.startswith (chunk_blob_name base i) base = true.
Proof. apply startswith_app. Qed.

Lemma chunk_blob_name_inj base i j :
  0 ≤ i → 0 ≤ j → chunk_blob_name base i = chunk_blob_name base j → i = j.
Proof.
  intros Hi Hj E. unfold chunk_blob_name in E.
  apply (inj (String.append base)) in E.
  apply (inj (String.append "/chunk_")) in E.
  apply app_string_inj_r in E. by apply fmt_05d_inj.
Qed.

Lemma NoDup_chunk_blob_names base m :
  NoDup (chunk_blob_name base <$> seqZ 0 m).
Proof.
  apply NoDup_fmap_2_strong; [|apply NoDup_seqZ].
  intros i j Hi%elem_of_seqZ Hj%elem_of_seqZ E.
  apply (chunk_blob_name_inj base); [lia|lia|done].
Qed.

Lemma slice_rows_between {A} (l : list A) (a b : Z) :
  0 ≤ a ≤ b → b ≤ Z.of_nat (length l) → Py.slice l a b = rows_between l a b.
Proof.
  intros Hab Hb. unfold Py.slice, Py.slice_index, rows_between.
  rewrite !(proj2 (Z.ltb_ge _ _)) by lia.
  by rewrite !Z.min_l by lia.
Qed.

Lemma rows_between_chunk {A} (l : list A) (k i : Z) :
  0 < k →
  rows_between l (i * k) (Z.min ((i + 1) * k) (Z.of_nat (length l)))
  = take (Z.to_nat k) (drop (Z.to_nat (i * k)) l).
Proof.
  intros Hk. unfold rows_between.
  destruct (Z.le_gt_cases ((i + 1) * k) (Z.of_nat (length l))) as [Hle|Hgt].
  - rewrite Z.min_l by done. f_equal. lia.
  - assert (0 ≤ i) by nia. rewrite Z.min_r by lia.
    rewrite !take_ge; [done|rewrite length_drop; lia..].
Qed.

Lemma chunks_from {A} (l : list A) (k : Z) (count : nat) (start : Z) :
  0 < k → 0 ≤ start →
  flat_map (λ i, take (Z.to_nat k) (drop (Z.to_nat (i * k)) l))
    (seqZ start (Z.of_nat count))
  = take (count * Z.to_nat k) (drop (Z.to_nat (start * k)) l).
Proof.
  intros Hk. revert start. induction count as [|count IH]; intros start Hs.
  { by rewrite seqZ_nil. }
  rewrite seqZ_cons by lia. simpl.
  replace (Z.pred (Z.of_nat (S count))) with (Z.of_nat count) by lia.
  rewrite IH by lia.
  replace (Z.to_nat (Z.succ start * k))
    with (Z.to_nat (start * k) + Z.to_nat k)%nat by lia.
  rewrite <- drop_drop. apply take_take_drop.
Qed.

(** The chunks, in ascending index order, are the rows. *)
Lemma chunks_cover {A} (l : list A) (k m : Z) :
  0 < k → Z.of_nat (length l) ≤ m * k →
  flat_map
    (λ i, rows_between l (i * k) (Z.min ((i + 1) * k) (Z.of_nat (length l))))
    (seqZ 0 m)
  = l.
Proof.
  intros Hk Hm.
  assert (0 ≤ m) by nia.
  rewrite (flat_map_ext _ (λ i, take (Z.to_nat k) (drop (Z.to_nat (i * k)) l))).
  - replace m with (Z.of_nat (Z.to_nat m)) by lia.
    rewrite chunks_from by lia. simpl. rewrite drop_0. apply take_ge. nia.
  - intros i. by apply rows_between_chunk.
Qed.

Lemma ceil_div_bounds n k :
  0 ≤ n → 0 < k →
  let m := (n + k - 1) `div` k in (m - 1) * k < n ≤ m * k.
Proof.
  intros Hn Hk m. subst m.
  pose proof (Z.div_mod (n + k - 1) k ltac:(lia)) as E.
  pose proof (Z.mod_pos_bound (n + k - 1) k Hk) as B.
  nia.
Qed.

End ChunkFacts.

(** ** write_parquet_chunked *)

Section ChunkedWrite.
Context `{RT : Runtime}.

Lemma write_parquet_chunked_run self df base k compression overwrite engine st :
  k ≠ 0 → compression ∈ supported_compression →
  (overwrite = true ∨ ∀ i, 0 ≤ i → st !! chunk_blob_name base i = None) →
  let m := (Pd.len df + k - 1) `div` k in
  write_parquet_chunked self df base k compression overwrite engine st
  = (Ok ((λ i, get_blob_url self (chunk_blob_name base i)) <$> seqZ 0 m),
     put_all engine compression st
       ((λ i, (chunk_blob_name base i,
               Pd.iloc df (i * k) (Z.min ((i + 1) * k) (Pd.len df))))
          <$> seqZ 0 m)).
Proof.
  intros Hk Hc How m. unfold write_parquet_chunked.
  destruct (decide (k = 0)) as [|_]; [done|].
  unfold Py.range. fold m.
  apply (for_each_write_parquet self (seqZ 0 m) (chunk_blob_name base)
           (λ i, Pd.iloc df (i * k) (Z.min ((i + 1) * k) (Pd.len df)))).
  - intros i _. apply chunk_blob_name_ext.
  - done.
  - destruct How as [->|Hfree]; [by left|right]. split.
    + apply NoDup_chunk_blob_names.
    + intros i Hi%elem_of_seqZ. apply Hfree. lia.
Qed.

Lemma put_all_lookup_cases (P : Pd.DataFrame → Prop) engine compression st ws name :
  Forall (λ w, P w.2) ws →
  put_all engine compression st ws !! name = st !! name
  ∨ ∃ df, P df ∧ stored (put_all engine compression st ws) name df.
Proof.
  revert st. induction ws as [|[n d] ws IH]; intros st Hws; [by left|].
  apply Forall_cons in Hws as [Hd Hws].
  change (put_all engine compression st ((n, d) :: ws))
    with (put_all engine compression (put engine compression st (n, d)) ws).
  destruct (IH (put engine compression st (n, d)) Hws) as [E|?]; [|by right].
  unfold stored. rewrite E. unfold put. simpl.
  destruct (to_parquet d engine compression) as [b|] eqn:Hb; [|by left].
  destruct (decide (n = name)) as [->|Hne].
  - right. exists d. split; [done|]. exists b. split.
    + by rewrite lookup_insert_eq.
    + by eapply read_to_parquet.
  - left. by rewrite lookup_insert_ne.
Qed.

Lemma negative_chunk_count n k :
  0 ≤ n → k < 0 → 2 ≤ n → (n + k - 1) `div` k ≤ 0.
Proof.
  intros Hn Hk H2.
  pose proof (Z.div_mod (n + k - 1) k ltac:(lia)) as E.
  pose proof (Z.mod_neg_bound (n + k - 1) k Hk) as B.
  nia.
Qed.

Lemma few_rows_chunk_count n k :
  0 ≤ n → k < 0 → n ≤ 1 → 1 ≤ (n + k - 1) `div` k ≤ 2.
Proof.
  intros Hn Hk H1.
  pose proof (Z.div_mod (n + k - 1) k ltac:(lia)) as E.
  pose proof (Z.mod_neg_bound (n + k - 1) k Hk) as B.
  nia.
Qed.

Lemma negative_chunk_empty {A} (l : list A) k i :
  k < 0 → 0 ≤ i → (length l ≤ 1)%nat →
  Py.slice l (i * k) (Z.min ((i + 1) * k) (Z.of_nat (length l))) = [].
Proof.
  intros Hk Hi Hl. unfold Py.slice.
  assert (i * k ≤ 0) as Hik by nia.
  assert ((i + 1) * k = i * k + k) as Hstop by ring.
  assert (Py.slice_index (Z.of_nat (length l))
            (Z.min ((i + 1) * k) (Z.of_nat (length l))) = 0) as ->.
  { unfold Py.slice_index. rewrite Z.min_l by lia.
    destruct (Z.ltb_spec ((i + 1) * k) 0); [|lia].
    apply Z.max_l. lia. }
  assert (0 ≤ Py.slice_index (Z.of_nat (length l)) (i * k)).
  { unfold Py.slice_index. destruct (Z.ltb_spec (i * k) 0); lia. }
  replace (Z.to_nat _) with 0%nat by lia. done.
Qed.

(** C1 (amended): [write_parquet_chunked] does not validate
    [chunk_size]. With [chunk_size = 0] it fails with a
    [ZeroDivisionError] before any upload, so the container is unchanged.
    With a negative [chunk_size] the size raises no error either: for a
    table with at least two rows the call returns an empty URL list and
    uploads nothing; for a table with fewer than two rows it performs one
    or two flat writes of chunks without rows and has the outcome of those
    writes, so that with [overwrite] and a supported compression it
    returns normally and every blob it has uploaded holds zero rows. *)
Theorem write_parquet_chunked_nonpositive
    self df base k compression overwrite engine st :
  k ≤ 0 →
  (k = 0 →
   write_parquet_chunked self df base k compression overwrite engine st
   = (Raise ZeroDivisionError, st))
  ∧ (k < 0 → 2 ≤ Pd.len df →
     write_parquet_chunked self df base k compression overwrite engine st
     = (Ok [], st))
  ∧ (k < 0 → Pd.len df ≤ 1 →
     let m := (Pd.len df + k - 1) `div` k in
     1 ≤ m ≤ 2
     ∧ write_parquet_chunked self df base k compression overwrite engine st
       = for_each (seqZ 0 m)
           (λ i, write_parquet self (Pd.mkDataFrame (Pd.columns df) [])
                   (chunk_blob_name base i) compression overwrite false
                   engine "") st)
  ∧ (k < 0 → compression ∈ supported_compression → overwrite = true →
     ∃ urls st',
       write_parquet_chunked self df base k compression overwrite engine st
       = (Ok urls, st')
       ∧ ∀ name, st' !! name = st !! name
                 ∨ stored st' name (Pd.mkDataFrame (Pd.columns df) [])).
Proof.
  intros Hk. split; [|split; [|split]].
  - intros ->. unfold write_parquet_chunked. by rewrite decide_True.
  - intros Hneg H2. unfold write_parquet_chunked.
    rewrite decide_False by lia. unfold Py.range.
    rewrite seqZ_nil; [done|].
    apply negative_chunk_count; unfold Pd.len in *; lia.
  - intros Hneg H1 m. split.
    + apply few_rows_chunk_count; [unfold Pd.len; lia|done..].
    + unfold write_parquet_chunked. rewrite decide_False by lia.
      unfold Py.range. fold m. apply for_each_ext.
      intros i st' Hi%elem_of_seqZ. unfold Pd.iloc, Pd.len in *.
      rewrite negative_chunk_empty; [done|done|lia|lia].
  - intros Hneg Hc ->.
    rewrite write_parquet_chunked_run by (done || lia || by left).
    eexists _, _. split; [done|]. intros name.
    destruct (put_all_lookup_cases
                (λ d, d = Pd.mkDataFrame (Pd.columns df) [])
                engine compression st
                ((λ i, (chunk_blob_name base i,
                        Pd.iloc df (i * k) (Z.min ((i + 1) * k) (Pd.len df))))
                   <$> seqZ 0 ((Pd.len df + k - 1) `div` k)) name)
      as [?|(d & -> & ?)]; [|by left|by right].
    apply Forall_fmap, Forall_seqZ. intros i Hi. simpl. unfold Pd.iloc.
    f_equal. destruct (decide (2 ≤ Pd.len df)) as [H2|H1].
    + pose proof (negative_chunk_count (Pd.len df) k) as Hm.
      unfold Pd.len in *. lia.
    + apply negative_chunk_empty; unfold Pd.len in *; lia.
Qed.

(** C2: for [0 < chunk_size], [write_parquet_chunked] uploads exactly
    [m = ceil(len(df) / chunk_size)] chunks (the least [m] with
    [len(df) <= m * chunk_size]); chunk [i] holds the rows at positions
    [i*chunk_size <= p < min((i+1)*chunk_size, len(df))], in their order,
    under [base/chunk_{i:05d}.parquet], which for an index below 100000
    is [base/chunk_] followed by the five decimal digits of [i] and
    [.parquet]; no other blob changes; the chunks concatenated in
    ascending index order are the rows of the table; and a table without
    rows gives an empty URL list. *)
Theorem write_parquet_chunked_coverage
    self df base k compression overwrite engine st :
  0 < k → compression ∈ supported_compression →
  (overwrite = true ∨ ∀ i, 0 ≤ i → st !! chunk_blob_name base i = None) →
  let chunk i :=
    rows_between (Pd.rows df) (i * k) (Z.min ((i + 1) * k) (Pd.len df)) in
  ∃ m st',
    write_parquet_chunked self df base k compression overwrite engine st
    = (Ok ((λ i, get_blob_url self (chunk_blob_name base i)) <$> seqZ 0 m), st')
    ∧ (m - 1) * k < Pd.len df ≤ m * k
    ∧ (∀ i, 0 ≤ i < m →
         stored st' (chunk_blob_name base i)
           (Pd.mkDataFrame (Pd.columns df) (chunk i)))
    ∧ (∀ i, 0 ≤ i < m → i < 100000 →
         chunk_blob_name base i
         = base +:+ "/chunk_" +:+ five_digits i +:+ ".parquet")
    ∧ (∀ name, (∀ i, 0 ≤ i < m → name ≠ chunk_blob_name base i) →
         st' !! name = st !! name)
    ∧ flat_map chunk (seqZ 0 m) = Pd.rows df
    ∧ (Pd.len df = 0 → m = 0).
Proof.
  intros Hk Hc How chunk.
  pose proof (ceil_div_bounds (Pd.len df) k ltac:(unfold Pd.len; lia) Hk) as Hm.
  simpl in Hm. set (m := (Pd.len df + k - 1) `div` k) in *.
  eexists m, _. split; [apply write_parquet_chunked_run; (done || lia)|].
  fold m. split; [done|]. split; [|split; [|split; [|split]]].
  - intros i Hi.
    assert (Pd.mkDataFrame (Pd.columns df) (chunk i)
            = Pd.iloc df (i * k) (Z.min ((i + 1) * k) (Pd.len df))) as ->.
    { unfold Pd.iloc, chunk. f_equal. symmetry.
      apply slice_rows_between; unfold Pd.len in *; nia. }
    apply lookup_put_all; [done| |].
    + rewrite <- list_fmap_compose. apply NoDup_chunk_blob_names.
    + apply list_elem_of_fmap. exists i. split; [done|].
      apply elem_of_seqZ. lia.
  - intros i Hi H5. unfold chunk_blob_name.
    by rewrite fmt_05d_five_digits by lia.
  - intros name Hname. apply lookup_put_all_other.
    rewrite <- list_fmap_compose. intros (i & -> & Hi%elem_of_seqZ)%list_elem_of_fmap.
    apply (Hname i); [lia|done].
  - apply chunks_cover; [done|]. unfold Pd.len in *. lia.
  - intros Hz. nia.
Qed.

End ChunkedWrite.

(** ** Concatenation *)

Section ConcatFacts.

Lemma filter_absent_nil (cols : list string) :
  List.filter (λ c, bool_decide (c ∉ @nil string)) cols = cols.
Proof.
  induction cols as [|c cols IH]; simpl in *; [done|]. by rewrite IH.
Qed.

Lemma filter_absent_self (cs cols : list string) :
  cols ⊆ cs → List.filter (λ c, bool_decide (c ∉ cs)) cols = [].
Proof.
  induction cols as [|c cols IH]; intros Hsub; simpl; [done|].
  rewrite bool_decide_eq_false_2.
  - apply IH. set_solver.
  - intros Hc. apply Hc, Hsub. left.
Qed.


Lemma union_columns_same cs (dfs : list Pd.DataFrame) :
  Forall (λ df, Pd.columns df = cs) dfs → dfs ≠ [] →
  Pd.union_columns dfs = cs.
Proof.
  intros Hall Hne. destruct dfs as [|d dfs]; [done|].
  apply Forall_cons in Hall as [Hd Hall].
  unfold Pd.union_columns. simpl. rewrite filter_absent_nil, Hd.
  clear Hne Hd d. induction Hall as [|d dfs Hd _ IH]; simpl; [done|].
  rewrite Hd, filter_absent_self by done. by rewrite app_nil_r.
Qed.

Lemma cell_map cols (f : string → Pd.value) c :
  c ∈ cols → Pd.cell cols (map f cols) c = f c.
Proof.
  induction cols as [|c' cols IH]; intros Hc; simpl.
  - by apply elem_of_nil in Hc.
  - destruct (decide (c = c')) as [->|Hne]; [done|].
    apply IH. by apply elem_of_cons in Hc as [?|?].
Qed.


Lemma reindex_same cols row :
  NoDup cols → length row = length cols → Pd.reindex cols cols row = row.
Proof.
  unfold Pd.reindex. revert row.
  induction cols as [|c cols IH]; intros [|v row] Hnd Hlen; simpl in *;
    try done.
  apply NoDup_cons in Hnd as [Hc Hnd].
  rewrite decide_True by done. f_equal.
  etrans; [|apply (IH row); (done || lia)].
  apply map_ext_in. intros c' Hc'%list_elem_of_In.
  rewrite decide_False; [done|]. by intros ->.
Qed.

Lemma concat_same_columns cs (dfs : list Pd.DataFrame) :
  NoDup cs →
  Forall (λ df, Pd.columns df = cs
                ∧ Forall (λ r, length r = length cs) (Pd.rows df)) dfs →
  dfs ≠ [] →
  Pd.concat dfs = Ok (Pd.mkDataFrame cs (flat_map Pd.rows dfs)).
Proof.
  intros Hnd Hall Hne. unfold Pd.concat.
  rewrite (union_columns_same cs).
  - destruct dfs as [|d dfs]; [done|]. do 2 f_equal.
    clear Hne. induction Hall as [|d' dfs' [Hd Hrows] _ IH]; [done|].
    simpl. rewrite IH. f_equal. rewrite Hd.
    rewrite <- (map_id (Pd.rows d')) at 2. apply map_ext_in.
    intros r Hr%list_elem_of_In. rewrite Forall_forall in Hrows.
    apply reindex_same; [done|]. by apply Hrows.
  - eapply Forall_impl; [done|]. by intros ? [? _].
  - done.
Qed.

End ConcatFacts.

(** ** write_parquet, read_parquet and append_parquet *)

Section FlatWrite.
Context `{RT : Runtime}.

Lemma ensure_extension_ext name :
  Py.endswith (ensure_extension name) ".parquet" = true.
Proof.
  unfold ensure_extension.
  destruct (Py.endswith name ".parquet") eqn:E; simpl; [done|].
  apply endswith_app.
Qed.

Lemma ensure_extension_idemp name :
  ensure_extension (ensure_extension name) = ensure_extension name.
Proof.
  unfold ensure_extension at 1. by rewrite ensure_extension_ext.
Qed.


Lemma write_parquet_ensure self df name compression overwrite stamp engine now st :
  write_parquet self df (ensure_extension name) compression overwrite stamp
    engine now st
  = write_parquet self df name compression overwrite stamp engine now st.
Proof. unfold write_parquet. by rewrite ensure_extension_idemp. Qed.


End FlatWrite.

(** ** append_parquet *)

Section Append.
Context `{RT : Runtime}.

Lemma write_parquet_overwrite self df name compression engine st :
  compression ∈ supported_compression →
  ∃ b, to_parquet df engine compression = Some b
       ∧ write_parquet self df name compression true false engine "" st
         = (Ok (get_blob_url self (ensure_extension name)),
            <[ensure_extension name := b]> st).
Proof.
  intros Hc. destruct (to_parquet_supported df engine compression Hc) as [b Hb].
  exists b. split; [done|].
  rewrite <- write_parquet_ensure.
  rewrite write_parquet_plain by apply ensure_extension_ext.
  rewrite Hb. unfold upload_file. by destruct (st !! _).
Qed.


Lemma append_parquet_absent self df name compression engine st :
  st !! name = None →
  append_parquet self df name compression engine st
  = write_parquet self df name compression true false engine "" st.
Proof.
  intros Hn. unfold append_parquet, bind, blob_exists. rewrite Hn.
  rewrite bool_decide_eq_false_2 by (by intros [? ?]). done.
Qed.


(** C9: the existence check of [append_parquet] looks at the name as
    given, the write goes to the name with its extension. For a name
    that does not end in [.parquet], with a blob under
    [name + ".parquet"] and none under [name], nothing is concatenated:
    the blob under [name + ".parquet"] is replaced by the Parquet file of
    [df] alone, and the rows it held are gone. *)
Theorem append_parquet_raw_name_overwrites
    self df name compression engine st old :
  compression ∈ supported_compression →
  Py.endswith name ".parquet" = false →
  st !! name = None →
  st !! (name +:+ ".parquet") = Some old →
  ∃ b,
    to_parquet df engine compression = Some b
    ∧ pd_read_parquet b "pyarrow" None None = Some df
    ∧ append_parquet self df name compression engine st
      = (Ok (get_blob_url self (name +:+ ".parquet")),
         <[name +:+ ".parquet" := b]> st)
    ∧ stored (append_parquet self df name compression engine st).2
        (name +:+ ".parquet") df.
Proof.
  intros Hc Hext Hnone Hold.
  destruct (write_parquet_overwrite self df name compression engine st Hc)
    as (b & Hb & Hw).
  assert (ensure_extension name = name +:+ ".parquet") as E.
  { unfold ensure_extension. by rewrite Hext. }
  rewrite E in Hw. exists b.
  assert (pd_read_parquet b "pyarrow" None None = Some df) as Hdec
    by (by eapply read_to_parquet).
  rewrite append_parquet_absent, Hw by done.
  repeat split; try done.
  exists b. simpl. by rewrite lookup_insert_eq.
Qed.

End Append.

(** ** The order of group keys *)

Section KeyOrder.

Lemma string_compare_refl s : String.compare s s = Eq.
Proof.
  induction s as [|a s IH]; simpl; [done|].
  unfold Ascii.compare. by rewrite N.compare_refl.
Qed.

Lemma string_compare_trans s1 s2 s3 :
  String.compare s1 s2 = Lt → String.compare s2 s3 = Lt →
  String.compare s1 s3 = Lt.
Proof.
  revert s2 s3. induction s1 as [|a1 s1 IH]; intros [|a2 s2] [|a3 s3];
    simpl; try done.
  unfold Ascii.compare.
  destruct (N.compare_spec (N_of_ascii a1) (N_of_ascii a2)) as [E12|L12|G12];
    try done;
    destruct (N.compare_spec (N_of_ascii a2) (N_of_ascii a3)) as [E23|L23|G23];
    try done; intros H12 H23.
  - rewrite E12, E23, N.compare_refl. by eapply IH.
  - rewrite E12. by apply N.compare_lt_iff in L23 as ->.
  - rewrite <- E23. by apply N.compare_lt_iff in L12 as ->.
  - assert (N_of_ascii a1 < N_of_ascii a3)%N as L by lia.
    by apply N.compare_lt_iff in L as ->.
Qed.

Lemma value_compare_eq a b : Pd.value_compare a b = Eq ↔ a = b.
Proof.
  destruct a as [|x|s], b as [|y|t]; simpl; try (split; done).
  - rewrite Z.compare_eq_iff. split; congruence.
  - split.
    + by intros ->%String.compare_eq_iff.
    + intros [= ->]. apply string_compare_refl.
Qed.

Lemma value_compare_antisym a b :
  Pd.value_compare b a = CompOpp (Pd.value_compare a b).
Proof.
  destruct a as [|x|s], b as [|y|t]; simpl; try done.
  - apply Z.compare_antisym.
  - apply String.compare_antisym.
Qed.

Lemma value_compare_trans a b c :
  Pd.value_compare a b = Lt → Pd.value_compare b c = Lt →
  Pd.value_compare a c = Lt.
Proof.
  destruct a as [|x|s], b as [|y|t], c as [|z|u]; simpl; try done.
  - rewrite !Z.compare_lt_iff. lia.
  - apply string_compare_trans.
Qed.

Lemma key_compare_eq k1 k2 : Pd.key_compare k1 k2 = Eq ↔ k1 = k2.
Proof.
  revert k2. induction k1 as [|a k1 IH]; intros [|b k2]; simpl;
    try (split; done).
  destruct (Pd.value_compare a b) eqn:E.
  - apply value_compare_eq in E as ->. rewrite IH. split; congruence.
  - split; [done|]. intros [= -> _].
    by rewrite (proj2 (value_compare_eq b b) eq_refl) in E.
  - split; [done|]. intros [= -> _].
    by rewrite (proj2 (value_compare_eq b b) eq_refl) in E.
Qed.

Lemma key_compare_antisym k1 k2 :
  Pd.key_compare k2 k1 = CompOpp (Pd.key_compare k1 k2).
Proof.
  revert k2. induction k1 as [|a k1 IH]; intros [|b k2]; simpl; try done.
  rewrite (value_compare_antisym a b).
  destruct (Pd.value_compare a b); simpl; [apply IH|done..].
Qed.

Lemma key_compare_trans k1 k2 k3 :
  Pd.key_lt k1 k2 → Pd.key_lt k2 k3 → Pd.key_lt k1 k3.
Proof.
  unfold Pd.key_lt. revert k2 k3.
  induction k1 as [|a k1 IH]; intros [|b k2] [|c k3]; simpl; try done.
  destruct (Pd.value_compare a b) eqn:Eab; try done;
    destruct (Pd.value_compare b c) eqn:Ebc; try done; intros H12 H23.
  - apply value_compare_eq in Eab as ->. rewrite Ebc. by eapply IH.
  - apply value_compare_eq in Eab as ->. by rewrite Ebc.
  - apply value_compare_eq in Ebc as <-. by rewrite Eab.
  - by rewrite (value_compare_trans a b c).
Qed.

#[local] Instance key_lt_trans : Transitive Pd.key_lt.
Proof. intros ???. apply key_compare_trans. Qed.

Lemma key_lt_irrefl k : ¬ Pd.key_lt k k.
Proof.
  unfold Pd.key_lt. by rewrite (proj2 (key_compare_eq k k) eq_refl).
Qed.

Lemma key_lt_asym k1 k2 : Pd.key_lt k1 k2 → Pd.key_lt k2 k1 → False.
Proof. intros H1 H2. apply (key_lt_irrefl k1). by etrans. Qed.

Lemma elem_of_insert_key k k' ks :
  k' ∈ Pd.insert_key k ks ↔ k' = k ∨ k' ∈ ks.
Proof.
  induction ks as [|k0 ks IH]; simpl.
  - rewrite list_elem_of_singleton, elem_of_nil. tauto.
  - destruct (Pd.key_compare k k0) eqn:E.
    + apply key_compare_eq in E as ->. rewrite elem_of_cons.
      intuition congruence.
    + rewrite !elem_of_cons. tauto.
    + rewrite !elem_of_cons, IH. tauto.
Qed.

Lemma Sorted_insert_key k ks :
  Sorted Pd.key_lt ks → Sorted Pd.key_lt (Pd.insert_key k ks).
Proof.
  induction 1 as [|k0 ks Hs IH Hhd]; simpl.
  - repeat constructor.
  - destruct (Pd.key_compare k k0) eqn:E.
    + by constructor.
    + constructor; [by constructor|]. by constructor.
    + constructor; [done|].
      assert (Pd.key_lt k0 k) as Hlt.
      { unfold Pd.key_lt. by rewrite key_compare_antisym, E. }
      destruct Hhd as [|k1 ks' Hk1]; simpl; [by constructor|].
      destruct (Pd.key_compare k k1); by constructor.
Qed.

Lemma elem_of_sorted_keys k keys : k ∈ Pd.sorted_keys keys ↔ k ∈ keys.
Proof.
  unfold Pd.sorted_keys. induction keys as [|k0 keys IH]; simpl; [done|].
  rewrite elem_of_insert_key, IH, elem_of_cons. tauto.
Qed.

Lemma StronglySorted_sorted_keys keys :
  StronglySorted Pd.key_lt (Pd.sorted_keys keys).
Proof.
  apply Sorted_StronglySorted; [apply _|].
  unfold Pd.sorted_keys. induction keys as [|k0 keys IH]; simpl.
  - constructor.
  - by apply Sorted_insert_key.
Qed.

Lemma NoDup_StronglySorted ks : StronglySorted Pd.key_lt ks → NoDup ks.
Proof.
  induction 1 as [|k ks Hs IH Hall]; constructor; [|done].
  intros Hin. rewrite Forall_forall in Hall.
  by apply (key_lt_irrefl k), Hall.
Qed.

(** A strictly ascending list is determined by its elements. *)
Lemma StronglySorted_key_lt_unique ks1 ks2 :
  StronglySorted Pd.key_lt ks1 → StronglySorted Pd.key_lt ks2 →
  (∀ k, k ∈ ks1 ↔ k ∈ ks2) → ks1 = ks2.
Proof.
  intros H1 H2 Hel.
  apply (StronglySorted_unique_strong Pd.key_lt); [|done|done|].
  - intros k1 k2 _ _ Ha Hb. destruct (key_lt_asym _ _ Ha Hb).
  - apply NoDup_Permutation; auto using NoDup_StronglySorted.
Qed.

End KeyOrder.

(** ** Groups *)

Section GroupFacts.

Lemma group_keys_spec df by_ k :
  k ∈ Pd.group_keys df by_ ↔
  Pd.has_null k = false
  ∧ ∃ r, r ∈ Pd.rows df ∧ Pd.row_key (Pd.columns df) by_ r = k.
Proof.
  unfold Pd.group_keys. rewrite elem_of_sorted_keys, list_elem_of_In, filter_In.
  rewrite <- list_elem_of_In, negb_true_iff.
  change (map ?f ?l) with (f <$> l). rewrite list_elem_of_fmap.
  split.
  - intros [(r & -> & Hr) Hn]. eauto.
  - intros [Hn (r & Hr & <-)]. eauto.
Qed.

Lemma group_keys_sorted df by_ :
  StronglySorted Pd.key_lt (Pd.group_keys df by_).
Proof. apply StronglySorted_sorted_keys. Qed.

(** The groups do not depend on the order of the rows. *)
Lemma group_keys_perm df df' by_ :
  Pd.columns df' = Pd.columns df → Pd.rows df' ≡ₚ Pd.rows df →
  Pd.group_keys df' by_ = Pd.group_keys df by_.
Proof.
  intros Hc Hr.
  apply StronglySorted_key_lt_unique; try apply group_keys_sorted.
  intros k. rewrite !group_keys_spec, Hc.
  by setoid_rewrite Hr.
Qed.

Lemma flat_map_filter_nil {A K} (P : K → A → bool) (ks : list K) :
  flat_map (λ k, List.filter (P k) []) ks = [].
Proof. induction ks; simpl; auto. Qed.

Lemma flat_map_filter_cons {A K} `{EqDecision K} (key : A → K) x l (ks : list K) :
  NoDup ks →
  flat_map (λ k, List.filter (λ y, bool_decide (key y = k)) (x :: l)) ks
  ≡ₚ (if decide (key x ∈ ks) then [x] else [])
      ++ flat_map (λ k, List.filter (λ y, bool_decide (key y = k)) l) ks.
Proof.
  induction 1 as [|k ks Hk Hnd IH]; [done|].
  cbn [flat_map List.filter]. rewrite IH. clear IH.
  destruct (decide (key x = k)) as [E|E].
  - rewrite bool_decide_eq_true_2 by done.
    rewrite (decide_True (P := key x ∈ k :: ks)) by (rewrite E; left).
    rewrite (decide_False (P := key x ∈ ks)) by (by rewrite E). done.
  - rewrite bool_decide_eq_false_2 by done.
    destruct (decide (key x ∈ ks)) as [Hin|Hin].
    + rewrite (decide_True (P := key x ∈ k :: ks)) by (by right). simpl.
      by rewrite <- Permutation_middle.
    + rewrite (decide_False (P := key x ∈ k :: ks)); [done|].
      intros [?|?]%elem_of_cons; done.
Qed.

Lemma flat_map_filter_key {A K} `{EqDecision K} (key : A → K) l (ks : list K) :
  NoDup ks → (∀ x, x ∈ l → key x ∈ ks) →
  flat_map (λ k, List.filter (λ y, bool_decide (key y = k)) l) ks ≡ₚ l.
Proof.
  intros Hnd. induction l as [|x l IH]; intros Hin.
  - by rewrite flat_map_filter_nil.
  - rewrite flat_map_filter_cons by done.
    rewrite decide_True by (apply Hin; left). simpl. f_equiv.
    apply IH. intros y Hy. apply Hin. by right.
Qed.

(** Without missing values in the keys, the groups are a partition of
    the rows. *)
Lemma groups_cover df by_ :
  (∀ r, r ∈ Pd.rows df →
        Pd.has_null (Pd.row_key (Pd.columns df) by_ r) = false) →
  flat_map (Pd.group_rows df by_) (Pd.group_keys df by_) ≡ₚ Pd.rows df.
Proof.
  intros Hnn. unfold Pd.group_rows. apply flat_map_filter_key.
  - apply NoDup_StronglySorted, group_keys_sorted.
  - intros r Hr. apply group_keys_spec. eauto.
Qed.

Lemma find_absent_none (cols labels : list string) :
  labels ⊆ cols →
  List.find (λ c, bool_decide (c ∉ cols)) labels = None.
Proof.
  intros Hsub. destruct (List.find _ labels) as [c|] eqn:E; [|done].
  apply find_some in E as [Hin Hc]. apply bool_decide_eq_true_1 in Hc.
  destruct Hc. by apply Hsub, list_elem_of_In.
Qed.

Lemma find_absent_some (cols labels : list string) c :
  c ∈ labels → c ∉ cols →
  ∃ c', List.find (λ c, bool_decide (c ∉ cols)) labels = Some c'
        ∧ c' ∈ labels ∧ c' ∉ cols.
Proof.
  intros Hin Hc. destruct (List.find _ labels) as [c'|] eqn:E.
  - apply find_some in E as [Hin' Hc']. exists c'.
    split; [done|]. split; [by apply list_elem_of_In|].
    by apply bool_decide_eq_true_1 in Hc'.
  - eapply find_none in E; [|by apply list_elem_of_In].
    by apply bool_decide_eq_false_1 in E.
Qed.

Lemma partition_path_parts_zip `{RT : Runtime} by_ flag k :
  partition_path_parts by_ (Pd.group_name_of flag k)
  = map (λ '(col, val), col +:+ "=" +:+ Pd.str val) (zip by_ k).
Proof.
  by destruct k as [|v [|v' k]], by_ as [|c [|c' by_]], flag.
Qed.

Lemma partition_blob_name_ext `{RT : Runtime} base by_ pv :
  Py.endswith (partition_blob_name base by_ pv) ".parquet" = true.
Proof.
  unfold partition_blob_name.
  change "/data.parquet" with ("/data" +:+ ".parquet").
  rewrite <- (app_string_assoc _ "/data" ".parquet").
  rewrite <- (app_string_assoc "/" _ ".parquet").
  rewrite <- (app_string_assoc base _ ".parquet").
  apply endswith_app.
Qed.

End GroupFacts.

(** ** Splitting and stripping *)

Section SplitFacts.

Lemma split_nonempty sep s : ∃ h t, Py.split sep s = h :: t.
Proof.
  induction s as [|a s (h & t & IH)]; simpl; [eauto|].
  destruct (Ascii.eqb a sep); [eauto|]. rewrite IH. eauto.
Qed.

Lemma split_no_sep sep s : Py.contains sep s = false → Py.split sep s = [s].
Proof.
  induction s as [|a s IH]; simpl; [done|].
  intros [Ha Hs]%orb_false_elim. rewrite Ha, IH by done. done.
Qed.

(** [(a + sep + b).split(sep) = a.split(sep) + b.split(sep)] *)
Lemma split_app_sep sep a b :
  Py.split sep (a +:+ String sep b) = Py.split sep a ++ Py.split sep b.
Proof.
  induction a as [|x a IH].
  - change ("" +:+ String sep b) with (String sep b). simpl.
    by rewrite Ascii.eqb_refl.
  - rewrite app_string_cons. simpl. rewrite IH.
    destruct (Ascii.eqb x sep); [done|].
    by destruct (split_nonempty sep a) as (h & t & ->).
Qed.

Lemma split_join sep parts :
  parts ≠ [] → Forall (λ p, Py.contains sep p = false) parts →
  Py.split sep (Py.join (String sep "") parts) = parts.
Proof.
  intros Hne Hall. induction Hall as [|p parts Hp Hall IH]; [done|].
  destruct parts as [|q parts].
  - simpl. by apply split_no_sep.
  - change (Py.join (String sep "") (p :: q :: parts))
      with (p +:+ String sep (Py.join (String sep "") (q :: parts))).
    rewrite split_app_sep, split_no_sep by done. simpl. f_equal. by apply IH.
Qed.

Lemma contains_app c a b :
  Py.contains c (a +:+ b) = Py.contains c a || Py.contains c b.
Proof.
  induction a as [|x a IH]; [done|].
  rewrite app_string_cons. simpl. rewrite IH. by rewrite orb_assoc.
Qed.

Lemma contains_split c sep s :
  Py.contains c s = false →
  Forall (λ p, Py.contains c p = false) (Py.split sep s).
Proof.
  induction s as [|a s IH]; simpl; [by repeat constructor|].
  intros [Ha Hs]%orb_false_elim. specialize (IH Hs).
  destruct (Ascii.eqb a sep); [by constructor|].
  destruct (split_nonempty sep s) as (h & t & E). rewrite E in *.
  apply Forall_cons in IH as [Hh Ht]. constructor; [|done].
  simpl. by rewrite Ha, Hh.
Qed.

Lemma split1_app sep a b :
  Py.contains sep a = false →
  Py.split1 sep (a +:+ String sep b) = Some (a, b).
Proof.
  induction a as [|x a IH]; intros Ha.
  - change ("" +:+ String sep b) with (String sep b). simpl.
    by rewrite Ascii.eqb_refl.
  - rewrite app_string_cons. simpl in *.
    apply orb_false_elim in Ha as [Hx Ha]. by rewrite Hx, IH.
Qed.

(** What [rstrip] removes is a run of the character at the end. *)
Lemma rstrip_prefix c s : ∃ t, s = Py.rstrip c s +:+ t.
Proof.
  induction s as [|a s [t IH]]; simpl; [by exists ""|].
  destruct (Py.rstrip c s) as [|b r] eqn:E.
  - destruct (Ascii.eqb a c).
    + by exists (String a s).
    + exists s. done.
  - exists t. rewrite app_string_cons. by rewrite <- IH.
Qed.

Lemma rstrip_app_char c s : Py.rstrip c (s +:+ String c "") = Py.rstrip c s.
Proof.
  induction s as [|a s IH].
  - change ("" +:+ String c "") with (String c ""). simpl.
    by rewrite Ascii.eqb_refl.
  - rewrite app_string_cons. simpl. by rewrite IH.
Qed.

End SplitFacts.

(** ** Kinds of column and the names of partition blobs *)

Section PartitionNames.
Context `{RT : Runtime}.

Lemma typed_same_kind df c r1 r2 :
  Pd.typed df → c ∈ Pd.columns df → r1 ∈ Pd.rows df → r2 ∈ Pd.rows df →
  Pd.is_int (Pd.cell (Pd.columns df) r1 c)
  = Pd.is_int (Pd.cell (Pd.columns df) r2 c).
Proof.
  intros Ht Hc H1 H2. unfold Pd.typed in Ht. rewrite Forall_forall in Ht.
  specialize (Ht c Hc). unfold Pd.uniform in Ht.
  assert (∀ r, r ∈ Pd.rows df →
            In (Pd.cell (Pd.columns df) r c)
               (map (λ r, Pd.cell (Pd.columns df) r c) (Pd.rows df))) as Hin.
  { intros r Hr. apply (in_map (λ r, Pd.cell (Pd.columns df) r c)).
    by apply list_elem_of_In. }
  apply orb_true_iff in Ht as [Ht|Ht]; rewrite forallb_forall in Ht.
  - by rewrite (Ht _ (Hin r1 H1)), (Ht _ (Hin r2 H2)).
  - pose proof (Ht _ (Hin r1 H1)) as E1. pose proof (Ht _ (Hin r2 H2)) as E2.
    apply negb_true_iff in E1, E2. by rewrite E1, E2.
Qed.

Lemma has_null_false k : Pd.has_null k = false ↔ Pd.VNull ∉ k.
Proof.
  unfold Pd.has_null. induction k as [|v k IH]; simpl.
  - split; [intros _; apply not_elem_of_nil|done].
  - rewrite orb_false_iff, IH, not_elem_of_cons, bool_decide_eq_false.
    split; intros [? ?]; split; (done || congruence).
Qed.

Lemma keys_same_kind df by_ k1 k2 :
  Pd.typed df → by_ ⊆ Pd.columns df →
  k1 ∈ Pd.group_keys df by_ → k2 ∈ Pd.group_keys df by_ →
  Forall2 same_kind k1 k2.
Proof.
  intros Ht Hsub (Hn1 & r1 & Hr1 & <-)%group_keys_spec
         (Hn2 & r2 & Hr2 & <-)%group_keys_spec.
  apply has_null_false in Hn1, Hn2. unfold Pd.row_key in *.
  change (map ?f ?l) with (f <$> l) in *.
  apply Forall2_fmap, Forall_Forall2_diag, Forall_forall.
  intros c Hc. split; [|split].
  - apply typed_same_kind; auto.
  - intros E. apply Hn1. rewrite <- E. apply list_elem_of_fmap. eauto.
  - intros E. apply Hn2. rewrite <- E. apply list_elem_of_fmap. eauto.
Qed.

Lemma str_int_inj x y : Py.str_int x = Py.str_int y → x = y.
Proof.
  assert (∀ z, Z.to_int z ≠ Decimal.Pos Decimal.Nil
               ∧ Z.to_int z ≠ Decimal.Neg Decimal.Nil) as Hnil.
  { intros [|p|p]; simpl; split; try discriminate; intros [= H];
      by apply DecimalPos.Unsigned.to_uint_nonnil in H. }
  unfold Py.str_int. intros E.
  apply (f_equal NilZero.int_of_string) in E.
  rewrite !NilZero.isi in E by apply Hnil.
  injection E as E. by apply DecimalZ.to_int_inj.
Qed.

(** Values of one kind are told apart by their text. *)
Lemma str_same_kind_inj k1 k2 :
  Forall2 same_kind k1 k2 → Pd.str <$> k1 = Pd.str <$> k2 → k1 = k2.
Proof.
  induction 1 as [|a b k1 k2 (Hk & Ha & Hb) _ IH]; [done|].
  rewrite !fmap_cons. intros [= Hs E]. f_equal; [|by apply IH].
  destruct a as [|x|s], b as [|y|t]; simpl in *; try done.
  - by apply str_int_inj in Hs as ->.
  - by rewrite Hs.
Qed.

(** On values of one kind the order of the group keys is the ascending
    one. *)
Lemma key_lt_tuple_asc k1 k2 :
  Forall2 same_kind k1 k2 → Pd.key_lt k1 k2 → tuple_asc k1 k2.
Proof.
  unfold Pd.key_lt.
  induction 1 as [|a b k1 k2 (Hk & Ha & Hb) _ IH]; simpl; [done|].
  destruct a as [|x|s], b as [|y|t]; simpl in *; try done.
  - destruct (Z.compare_spec x y) as [->|Hlt|Hgt]; [|intros _|done].
    + intros H. by apply asc_tail, IH.
    + by apply asc_head, asc_int.
  - destruct (String.compare s t) eqn:E; [|intros _|done].
    + apply String.compare_eq_iff in E as ->. intros H. by apply asc_tail, IH.
    + by apply asc_head, asc_str.
Qed.

Lemma StronglySorted_impl_elem {A} (R S : relation A) (l : list A) :
  StronglySorted R l →
  (∀ x y, x ∈ l → y ∈ l → R x y → S x y) →
  StronglySorted S l.
Proof.
  induction 1 as [|x l Hl IH Hx]; intros H; constructor.
  - apply IH. intros y z Hy Hz. apply H; by right.
  - rewrite Forall_forall in *. intros y Hy.
    apply H; [left|by right|by apply Hx].
Qed.

Lemma cell_lookup cols (r : list Pd.value) c i v :
  NoDup cols → cols !! i = Some c → r !! i = Some v → Pd.cell cols r c = v.
Proof.
  revert r i. induction cols as [|c' cols IH]; intros [|x r] [|i] Hnd Hc Hr;
    simpl in *; try done.
  - injection Hc as ->. injection Hr as ->. by rewrite decide_True.
  - apply NoDup_cons in Hnd as [Hc' Hnd].
    rewrite decide_False.
    + by apply (IH r i).
    + intros ->. apply Hc'. by apply list_elem_of_lookup_2 in Hc.
Qed.

Lemma cell_lookup_inv cols (r : list Pd.value) c :
  c ∈ cols → length r = length cols →
  ∃ i, cols !! i = Some c ∧ r !! i = Some (Pd.cell cols r c).
Proof.
  revert r. induction cols as [|c' cols IH]; intros [|x r] Hc Hlen;
    simpl in *; try done.
  { by apply elem_of_nil in Hc. }
  destruct (decide (c = c')) as [->|Hne]; [by exists 0%nat|].
  apply elem_of_cons in Hc as [?|Hc]; [done|].
  destruct (IH r Hc ltac:(lia)) as (i & ? & ?). by exists (S i).
Qed.

(** The key of a row is the tuple of its cells at the positions of the
    partition columns. *)
Lemma tuple_of_row_key cols by_ r k :
  NoDup cols → length r = length cols → by_ ⊆ cols →
  tuple_of cols by_ r k ↔ Pd.row_key cols by_ r = k.
Proof.
  intros Hnd Hlen Hsub. unfold tuple_of, Pd.row_key.
  change (map ?f ?l) with (f <$> l). split.
  - clear Hsub. induction 1 as [|c v by' k' (i & Hc & Hv) _ IH]; [done|].
    rewrite fmap_cons. f_equal; [|done]. by apply (cell_lookup cols r c i).
  - intros <-. apply Forall2_fmap_r, Forall_Forall2_diag, Forall_forall.
    intros c Hc. apply cell_lookup_inv; auto.
Qed.

Lemma partition_blob_name_parts base by_ k :
  partition_blob_name base by_ (Pd.group_name_of scalar_group_names k)
  = base +:+ String "/" (Py.join "/" (key_parts by_ k)
                           +:+ String "/" "data.parquet").
Proof.
  unfold partition_blob_name. by rewrite partition_path_parts_zip.
Qed.

Lemma key_parts_no_slash by_ k :
  (∀ col, col ∈ by_ → Py.contains "/" col = false) →
  Forall (λ v, Py.contains "/" (Pd.str v) = false) k →
  Forall (λ p, Py.contains "/" p = false) (key_parts by_ k).
Proof.
  intros Hby Hk. unfold key_parts. revert by_ Hby.
  induction Hk as [|v k Hv Hk IH]; intros [|c by_] Hby; simpl;
    constructor.
  - rewrite !contains_app, Hv, Hby by left. done.
  - apply IH. intros col Hcol. apply Hby. by right.
Qed.

Lemma key_parts_nonempty by_ k :
  by_ ≠ [] → length k = length by_ → key_parts by_ k ≠ [].
Proof. by destruct by_, k. Qed.

(** The segments of the path of a partition blob. *)
Lemma split_partition_blob_name base by_ k :
  by_ ≠ [] → length k = length by_ →
  (∀ col, col ∈ by_ → Py.contains "/" col = false) →
  Forall (λ v, Py.contains "/" (Pd.str v) = false) k →
  Py.split "/"
    (partition_blob_name base by_ (Pd.group_name_of scalar_group_names k))
  = Py.split "/" base ++ key_parts by_ k ++ ["data.parquet"].
Proof.
  intros Hne Hlen Hby Hk. rewrite partition_blob_name_parts.
  rewrite !split_app_sep. rewrite split_join.
  - done.
  - by apply key_parts_nonempty.
  - by apply key_parts_no_slash.
Qed.

Lemma key_parts_inj by_ k1 k2 :
  length k1 = length by_ → length k2 = length by_ →
  key_parts by_ k1 = key_parts by_ k2 → Pd.str <$> k1 = Pd.str <$> k2.
Proof.
  unfold key_parts. revert k1 k2.
  induction by_ as [|c by_ IH]; intros [|v1 k1] [|v2 k2] H1 H2 E;
    simpl in *; try done.
  injection E as Ev E. f_equal.
  - apply (inj (String.append c)) in Ev.
    by apply (inj (String.append "=")) in Ev.
  - apply IH; (done || lia).
Qed.

Lemma partition_blob_name_inj base by_ k1 k2 :
  by_ ≠ [] → length k1 = length by_ → length k2 = length by_ →
  (∀ col, col ∈ by_ → Py.contains "/" col = false) →
  Forall (λ v, Py.contains "/" (Pd.str v) = false) k1 →
  Forall (λ v, Py.contains "/" (Pd.str v) = false) k2 →
  partition_blob_name base by_ (Pd.group_name_of scalar_group_names k1)
  = partition_blob_name base by_ (Pd.group_name_of scalar_group_names k2) →
  Pd.str <$> k1 = Pd.str <$> k2.
Proof.
  intros Hne H1 H2 Hby Hk1 Hk2 E.
  apply key_parts_inj with by_; [done..|].
  apply (f_equal (Py.split "/")) in E.
  rewrite !split_partition_blob_name in E by done.
  apply (inj (app (Py.split "/" base))) in E.
  by apply (inj (λ l, l ++ ["data.parquet"])) in E.
Qed.

(** Distinct groups of a typed table are written under distinct names,
    when no partition column and no partition value has a slash. *)
Lemma partition_names_inj df base by_ k1 k2 :
  Pd.typed df → by_ ≠ [] → by_ ⊆ Pd.columns df →
  (∀ col, col ∈ by_ → Py.contains "/" col = false) →
  (∀ r col, r ∈ Pd.rows df → col ∈ by_ →
            Py.contains "/" (Pd.str (Pd.cell (Pd.columns df) r col)) = false) →
  k1 ∈ Pd.group_keys df by_ → k2 ∈ Pd.group_keys df by_ →
  partition_blob_name base by_ (Pd.group_name_of scalar_group_names k1)
  = partition_blob_name base by_ (Pd.group_name_of scalar_group_names k2) →
  k1 = k2.
Proof.
  intros Ht Hne Hsub Hcols Hvals H1 H2 E.
  apply str_same_kind_inj; [by apply (keys_same_kind df by_)|].
  assert (∀ k, k ∈ Pd.group_keys df by_ →
            length k = length by_
            ∧ Forall (λ v, Py.contains "/" (Pd.str v) = false) k) as Hkey.
  { intros k (_ & r & Hr & <-)%group_keys_spec. unfold Pd.row_key. split.
    - by rewrite length_map.
    - apply Forall_fmap, Forall_forall. intros col Hcol. by apply Hvals. }
  destruct (Hkey k1 H1), (Hkey k2 H2).
  by apply (partition_blob_name_inj base by_).
Qed.

End PartitionNames.

(** ** write_parquet_partitioned *)

Section PartitionedWrite.
Context `{RT : Runtime}.

Lemma write_parquet_partitioned_run self df base by_ compression engine st :
  by_ ⊆ Pd.columns df → (by_ ≠ [] ∨ Pd.rows df = []) →
  compression ∈ supported_compression →
  write_parquet_partitioned self df base by_ compression true engine st
  = (Ok ((λ o, get_blob_url self o.2.1) <$> partition_outputs df base by_),
     put_all engine compression st (snd <$> partition_outputs df base by_)).
Proof.
  intros Hsub Hby Hc. unfold write_parquet_partitioned.
  rewrite find_absent_none by done.
  assert (Pd.groupby scalar_group_names df by_
          = Ok (map (λ k, (Pd.group_name_of scalar_group_names k,
                           Pd.mkDataFrame (Pd.columns df)
                             (Pd.group_rows df by_ k)))
                    (Pd.group_keys df by_))) as ->.
  { unfold Pd.groupby. destruct by_ as [|c by_]; [|done].
    destruct Hby as [?|Hnil]; [done|by rewrite Hnil]. }
  unfold bind at 1, lift.
  set (grouped := map _ (Pd.group_keys df by_)).
  rewrite (for_each_ext grouped _
             (λ x, write_parquet self
                     (Pd.mkDataFrame
                        (List.filter (λ c, bool_decide (c ∉ by_)) (Pd.columns df))
                        (map (λ r, Pd.drop_cells (Pd.columns df) r by_)
                             (Pd.rows x.2)))
                     (partition_blob_name base by_ x.1)
                     compression true false engine "")).
  - rewrite (for_each_write_parquet self grouped
               (λ x, partition_blob_name base by_ x.1)).
    + unfold partition_outputs, grouped. change (map ?f ?l) with (f <$> l).
      by rewrite <- !list_fmap_compose.
    + intros x _. apply partition_blob_name_ext.
    + done.
    + by left.
  - intros [pv g] st' Hx. unfold grouped in Hx.
    change (map ?f ?l) with (f <$> l) in Hx.
    apply list_elem_of_fmap in Hx as (k & [= -> ->] & _).
    unfold bind, lift, Pd.drop_columns. simpl.
    by rewrite find_absent_none.
Qed.

Lemma restore_drop_cells by_ key cols row :
  NoDup cols → length row = length cols →
  (∀ c, c ∈ cols → c ∈ by_ → Pd.cell by_ key c = Pd.cell cols row c) →
  restore_cells cols by_ key (Pd.drop_cells cols row by_) = row.
Proof.
  revert row. induction cols as [|c cols IH]; intros [|v row] Hnd Hlen Hkey;
    simpl in *; try done.
  apply NoDup_cons in Hnd as [Hc Hnd].
  assert (restore_cells cols by_ key (Pd.drop_cells cols row by_) = row) as E.
  { apply IH; [done|lia|]. intros c' Hc' Hby.
    rewrite Hkey by (by try right). rewrite decide_False; [done|].
    by intros ->. }
  destruct (decide (c ∈ by_)) as [Hin|Hout].
  - rewrite Hkey by (by try left). rewrite decide_True by done. by rewrite E.
  - by rewrite E.
Qed.

Lemma restore_group_row df by_ r :
  Pd.wf df → r ∈ Pd.rows df →
  restore_cells (Pd.columns df) by_ (Pd.row_key (Pd.columns df) by_ r)
    (Pd.drop_cells (Pd.columns df) r by_) = r.
Proof.
  intros [Hnd Hlen] Hr. rewrite Forall_forall in Hlen.
  apply restore_drop_cells; [done|by apply Hlen|].
  intros c _ Hc. unfold Pd.row_key. by apply cell_map.
Qed.

(** C3 (amended): for a table with unique labels, full rows and columns
    of one kind each, a non-empty list of partition columns that are all
    columns of the table and leave at least one other column, no missing
    value in a partition column, and no slash in the partition columns'
    names and values, the partitioned write uploads one blob per distinct
    combination of partition values, under
    [base/col1=val1/.../data.parquet]; these names are distinct, each blob
    holds the rows of its group without the partition columns, no other
    blob changes, and the rows of the blobs, with the partition values of
    their group put back, are the rows of the table up to order: every row
    is in exactly one blob. *)
Theorem write_parquet_partitioned_exhaustive
    self df base by_ compression engine st :
  Pd.wf df → Pd.typed df → by_ ≠ [] → by_ ⊆ Pd.columns df →
  ¬ Pd.columns df ⊆ by_ →
  (∀ r, r ∈ Pd.rows df →
        Pd.has_null (Pd.row_key (Pd.columns df) by_ r) = false) →
  (∀ col, col ∈ by_ → Py.contains "/" col = false) →
  (∀ r col, r ∈ Pd.rows df → col ∈ by_ →
            Py.contains "/" (Pd.str (Pd.cell (Pd.columns df) r col)) = false) →
  compression ∈ supported_compression →
  let outs := partition_outputs df base by_ in
  let st' := put_all engine compression st (snd <$> outs) in
  write_parquet_partitioned self df base by_ compression true engine st
  = (Ok ((λ o, get_blob_url self o.2.1) <$> outs), st')
  ∧ NoDup (fst <$> outs)
  ∧ NoDup ((λ o, o.2.1) <$> outs)
  ∧ Forall (λ o, stored st' o.2.1 o.2.2 ∧ Pd.columns o.2.2 ≠ []) outs
  ∧ (∀ name, name ∉ (λ o, o.2.1) <$> outs → st' !! name = st !! name)
  ∧ Forall (λ o, o.2.1
                 = base +:+ "/"
                     +:+ Py.join "/"
                           (map (λ '(col, val), col +:+ "=" +:+ Pd.str val)
                                (zip by_ o.1))
                     +:+ "/data.parquet") outs
  ∧ Forall (λ o, Forall (λ r, Pd.row_key (Pd.columns df) by_
                                (restore_cells (Pd.columns df) by_ o.1 r) = o.1)
                   (Pd.rows o.2.2)) outs
  ∧ partition_exhaustive df by_ outs.
Proof.
  intros Hwf Ht Hne Hsub Hother Hnn Hcols Hvals Hc outs st'.
  split; [apply write_parquet_partitioned_run; auto|].
  assert (Forall (λ o : list Pd.value * (string * Pd.DataFrame),
                    o.2.1
                    = base +:+ "/"
                        +:+ Py.join "/"
                              (map (λ '(col, val), col +:+ "=" +:+ Pd.str val)
                                   (zip by_ o.1))
                        +:+ "/data.parquet") outs) as Hpaths.
  { unfold outs, partition_outputs. apply Forall_fmap, Forall_forall.
    intros k _. simpl. unfold partition_blob_name.
    by rewrite partition_path_parts_zip. }
  assert (∀ k r, r ∈ Pd.group_rows df by_ k →
            r ∈ Pd.rows df ∧ Pd.row_key (Pd.columns df) by_ r = k) as Hgroup.
  { intros k r [Hr Hk]%list_elem_of_In%filter_In.
    split; [by apply list_elem_of_In|]. by apply bool_decide_eq_true_1 in Hk. }
  assert (NoDup (Pd.group_keys df by_)) as Hkeys
    by apply NoDup_StronglySorted, group_keys_sorted.
  assert (NoDup ((λ o, o.2.1) <$> outs)) as Hnames.
  { unfold outs, partition_outputs. rewrite <- list_fmap_compose.
    apply NoDup_fmap_2_strong; [|done].
    intros k1 k2 H1 H2 E. by apply (partition_names_inj df base by_). }
  assert ((snd <$> outs).*1 = (λ o, o.2.1) <$> outs) as Hfst
    by (by rewrite <- list_fmap_compose).
  assert (List.filter (λ c, bool_decide (c ∉ by_)) (Pd.columns df) ≠ [])
    as Hpayload.
  { intros Hnil. apply Hother. intros c Hin.
    destruct (decide (c ∈ by_)) as [|Hout]; [done|].
    assert (c ∈ List.filter (λ c, bool_decide (c ∉ by_)) (Pd.columns df))
      as Hf.
    { apply list_elem_of_In, filter_In. split; [by apply list_elem_of_In|].
      by apply bool_decide_eq_true_2. }
    rewrite Hnil in Hf. by apply elem_of_nil in Hf. }
  split; [|split; [done|split; [|split; [|split; [done|split]]]]].
  - unfold outs, partition_outputs. rewrite <- list_fmap_compose.
    by rewrite (list_fmap_ext _ id (Pd.group_keys df by_)), list_fmap_id.
  - apply Forall_forall. intros [k [name payload]] Ho. simpl. split.
    + apply lookup_put_all; [done|by rewrite Hfst|].
      apply list_elem_of_fmap. by exists (k, (name, payload)).
    + unfold outs, partition_outputs in Ho.
      by apply list_elem_of_fmap in Ho as (k' & [= _ _ ->] & _).
  - intros name Hname. apply lookup_put_all_other. by rewrite Hfst.
  - unfold outs, partition_outputs. apply Forall_fmap, Forall_forall.
    intros k _. simpl. apply Forall_forall.
    intros r' (r & <- & Hr)%list_elem_of_In%in_map_iff.
    apply list_elem_of_In, Hgroup in Hr as [Hr <-].
    by rewrite restore_group_row.
  - unfold partition_exhaustive, outs, partition_outputs.
    rewrite <- (groups_cover df by_ Hnn).
    assert (∀ k, map (restore_cells (Pd.columns df) by_ k)
                   (map (λ r, Pd.drop_cells (Pd.columns df) r by_)
                        (Pd.group_rows df by_ k))
                 = Pd.group_rows df by_ k) as Hback.
    { intros k. rewrite map_map.
      rewrite <- (map_id (Pd.group_rows df by_ k)) at 2.
      apply map_ext_in. intros r Hr.
      apply list_elem_of_In, Hgroup in Hr as [Hr <-].
      by apply restore_group_row. }
    clear -Hback. induction (Pd.group_keys df by_) as [|k ks IH]; [done|].
    simpl. by rewrite Hback, IH.
Qed.

(** C6: a partition column that is not a column of the table makes
    [write_parquet_partitioned] raise a [ValueError] naming such a column
    before anything is uploaded: the container is unchanged. *)
Theorem write_parquet_partitioned_validates
    self df base by_ compression overwrite engine st :
  (∃ col, col ∈ by_ ∧ col ∉ Pd.columns df) →
  ∃ col,
    col ∈ by_ ∧ (col ∉ Pd.columns df)
    ∧ write_parquet_partitioned self df base by_ compression overwrite engine st
      = (Raise (ValueError
                  ("Partition column '" +:+ col +:+ "' not found in DataFrame")),
         st).
Proof.
  intros (c & Hin & Hc).
  destruct (find_absent_some (Pd.columns df) by_ c Hin Hc)
    as (c' & Hfind & Hin' & Hc').
  exists c'. split; [done|]. split; [done|].
  unfold write_parquet_partitioned. by rewrite Hfind.
Qed.

(** C10: the groups of [write_parquet_partitioned] are enumerated in
    ascending order of their combinations of partition values (integers
    by value, strings by character code, tuples in the order of the
    partition columns): the URLs returned, and the uploads performed, are
    those of the strictly ascending list of the distinct combinations that
    occur in a row without a missing value among them, whatever the order
    in which they first appear; a table with the same rows in another
    order gives the same list of URLs. *)
Theorem write_parquet_partitioned_sorted
    self df base by_ compression engine st :
  Pd.wf df → Pd.typed df →
  by_ ⊆ Pd.columns df → (by_ ≠ [] ∨ Pd.rows df = []) →
  compression ∈ supported_compression →
  ∃ keys,
    let name k :=
      base +:+ "/"
        +:+ Py.join "/"
              (map (λ '(col, val), col +:+ "=" +:+ Pd.str val) (zip by_ k))
        +:+ "/data.parquet" in
    (write_parquet_partitioned self df base by_ compression true engine st).1
    = Ok ((λ k, get_blob_url self (name k)) <$> keys)
    ∧ (write_parquet_partitioned self df base by_ compression true engine st).2
      = put_all engine compression st (snd <$> partition_outputs df base by_)
    ∧ name <$> keys = (λ o, o.2.1) <$> partition_outputs df base by_
    ∧ StronglySorted tuple_asc keys
    ∧ (∀ k, k ∈ keys ↔
            (Pd.VNull ∉ k)
            ∧ ∃ r, r ∈ Pd.rows df ∧ tuple_of (Pd.columns df) by_ r k)
    ∧ (∀ df' st',
         Pd.columns df' = Pd.columns df → Pd.rows df' ≡ₚ Pd.rows df →
         (write_parquet_partitioned self df' base by_ compression true engine
            st').1
         = (write_parquet_partitioned self df base by_ compression true engine
              st).1).
Proof.
  intros Hwf Ht Hsub Hby Hc. exists (Pd.group_keys df by_).
  assert (∀ k, partition_blob_name base by_
                 (Pd.group_name_of scalar_group_names k)
               = base +:+ "/"
                   +:+ Py.join "/"
                         (map (λ '(col, val), col +:+ "=" +:+ Pd.str val)
                              (zip by_ k))
                   +:+ "/data.parquet") as Hname.
  { intros k. unfold partition_blob_name. by rewrite partition_path_parts_zip. }
  assert (∀ d, (λ o : list Pd.value * (string * Pd.DataFrame),
                  get_blob_url self o.2.1) <$> partition_outputs d base by_
               = (λ k, get_blob_url self
                         (base +:+ "/"
                            +:+ Py.join "/"
                                  (map (λ '(col, val),
                                          col +:+ "=" +:+ Pd.str val)
                                       (zip by_ k))
                            +:+ "/data.parquet"))
                   <$> Pd.group_keys d by_) as Hurls.
  { intros d. unfold partition_outputs. rewrite <- list_fmap_compose.
    apply list_fmap_ext. intros i k _. simpl. by rewrite Hname. }
  rewrite write_parquet_partitioned_run by done. simpl.
  split; [by rewrite Hurls|]. split; [done|]. split.
  { unfold partition_outputs. rewrite <- list_fmap_compose.
    apply list_fmap_ext. intros i k _. simpl. by rewrite Hname. }
  split.
  { apply (StronglySorted_impl_elem Pd.key_lt); [apply group_keys_sorted|].
    intros k1 k2 H1 H2. apply key_lt_tuple_asc.
    by apply (keys_same_kind df by_). }
  split.
  { intros k. rewrite group_keys_spec, has_null_false.
    destruct Hwf as [Hnd Hlen]. rewrite Forall_forall in Hlen.
    split; intros [Hn (r & Hr & Hk)]; (split; [done|]); exists r;
      (split; [done|]); by apply tuple_of_row_key; auto. }
  intros df' st' Hcols Hrows.
  rewrite write_parquet_partitioned_run; [| |  |done].
  - simpl. rewrite !Hurls. by rewrite (group_keys_perm df df').
  - by rewrite Hcols.
  - destruct Hby as [?|Hnil]; [by left|right].
    rewrite Hnil in Hrows. by apply Permutation_nil_r in Hrows.
Qed.

End PartitionedWrite.

(** ** read_parquet_chunked *)

Section ChunkedRead.
Context `{RT : Runtime}.

Lemma elem_of_matching_blobs base st name :
  name ∈ matching_blobs base st ↔
  is_Some (st !! name)
  ∧ Py.startswith name base = true ∧ Py.endswith name ".parquet" = true.
Proof.
  unfold matching_blobs. rewrite list_elem_of_In, !filter_In, <- list_elem_of_In.
  rewrite listing_perm, list_elem_of_fmap.
  split.
  - intros [[([n b] & -> & Hin) Hp] He]. simpl in *.
    apply elem_of_map_to_list in Hin. eauto.
  - intros ([b Hb] & Hp & He). split; [split|]; try done.
    exists (name, b). split; [done|]. by apply elem_of_map_to_list.
Qed.

Lemma NoDup_matching_blobs base st : NoDup (matching_blobs base st).
Proof.
  unfold matching_blobs. apply NoDup_ListNoDup. do 2 apply List.NoDup_filter.
  apply NoDup_ListNoDup. rewrite listing_perm. apply NoDup_fst_map_to_list.
Qed.

Lemma Sorted_consumed base st : Sorted String.le (consumed base st).
Proof. apply Sorted_merge_sort. apply _. Qed.

Lemma consumed_perm base st : consumed base st ≡ₚ matching_blobs base st.
Proof. apply merge_sort_Permutation. Qed.

Lemma read_parquet_chunked_unfold base st :
  read_parquet_chunked base None st
  = match consumed base st with
    | [] => (Raise (ValueError ("No parquet files found at: " +:+ base)), st)
    | blobs =>
        bind (for_each blobs (λ blob,
                bind (read_parquet blob None None "pyarrow") (λ df, ret df)))
             (λ dfs, lift (Pd.concat dfs)) st
    end.
Proof.
  unfold read_parquet_chunked, bind at 1, list_blobs.
  fold (matching_blobs base st). fold (consumed base st).
  by destruct (consumed base st).
Qed.

Lemma read_parquet_stored st name df :
  stored st name df → read_parquet name None None "pyarrow" st = (Ok df, st).
Proof.
  intros (b & Hb & Hdec). unfold read_parquet, bind, download_blob.
  by rewrite Hb, Hdec.
Qed.

Lemma for_each_read blobs frames st :
  Forall2 (stored st) blobs frames →
  for_each blobs (λ blob,
    bind (read_parquet blob None None "pyarrow") (λ df, ret df)) st
  = (Ok frames, st).
Proof.
  induction 1 as [|name df blobs frames Hst _ IH]; [done|].
  simpl. unfold bind at 1 2. rewrite (read_parquet_stored st name df Hst).
  unfold ret at 1. unfold bind at 1. by rewrite IH.
Qed.

Lemma Sorted_fmap_seqZ {A} (R : relation A) (f : Z → A) (s : Z) (n : nat) :
  (∀ i, s ≤ i → i + 1 < s + Z.of_nat n → R (f i) (f (i + 1))) →
  Sorted R (f <$> seqZ s (Z.of_nat n)).
Proof.
  revert s. induction n as [|n IH]; intros s Hstep.
  { rewrite seqZ_nil by lia. constructor. }
  rewrite seqZ_cons by lia.
  replace (Z.pred (Z.of_nat (S n))) with (Z.of_nat n) by lia.
  rewrite fmap_cons. constructor.
  - apply IH. intros i ??. apply Hstep; lia.
  - destruct n as [|n].
    + rewrite seqZ_nil by lia. constructor.
    + rewrite seqZ_cons by lia. rewrite fmap_cons. constructor.
      replace (Z.succ s) with (s + 1) by lia. apply Hstep; lia.
Qed.

(** Up to 100000 chunks, the chunk names are in lexical order by index. *)
Lemma Sorted_chunk_blob_names base m :
  m ≤ 100000 → Sorted String.le (chunk_blob_name base <$> seqZ 0 m).
Proof.
  intros Hm. destruct (decide (m ≤ 0)) as [|Hpos].
  { rewrite seqZ_nil by done. constructor. }
  replace m with (Z.of_nat (Z.to_nat m)) by lia.
  apply Sorted_fmap_seqZ. intros i Hi Hi'.
  unfold chunk_blob_name. do 2 apply le_app_string.
  apply fmt_05d_step. lia.
Qed.

Lemma StronglySorted_filter {A} (R : relation A) (P : A → Prop)
    `{∀ x, Decision (P x)} l :
  StronglySorted R l → StronglySorted R (filter P l).
Proof.
  induction 1 as [|x l Hl IH Hx]; [constructor|].
  rewrite filter_cons. destruct (decide (P x)); [|done].
  constructor; [done|]. rewrite Forall_forall in *.
  intros y [_ Hy]%list_elem_of_filter. by apply Hx.
Qed.

Lemma written_chunks self df base k compression engine st :
  0 < k → compression ∈ supported_compression →
  let m := (Pd.len df + k - 1) `div` k in
  let st' :=
    (write_parquet_chunked self df base k compression true engine st).2 in
  (∀ i, 0 ≤ i < m →
     stored st' (chunk_blob_name base i)
       (Pd.iloc df (i * k) (Z.min ((i + 1) * k) (Pd.len df))))
  ∧ (∀ name, name ∉ chunk_blob_name base <$> seqZ 0 m →
       st' !! name = st !! name).
Proof.
  intros Hk Hc m st'. unfold st'.
  rewrite write_parquet_chunked_run by (done || lia || by left).
  fold m. simpl. split.
  - intros i Hi. apply lookup_put_all; [done| |].
    + rewrite <- list_fmap_compose. apply NoDup_chunk_blob_names.
    + apply list_elem_of_fmap. exists i. split; [done|].
      apply elem_of_seqZ. lia.
  - intros name Hname. apply lookup_put_all_other.
    by rewrite <- list_fmap_compose.
Qed.

Lemma chunk_names_matching self df base k compression engine st i :
  0 < k → compression ∈ supported_compression →
  0 ≤ i < (Pd.len df + k - 1) `div` k →
  chunk_blob_name base i
  ∈ matching_blobs base
      (write_parquet_chunked self df base k compression true engine st).2.
Proof.
  intros Hk Hc Hi. apply elem_of_matching_blobs.
  destruct (written_chunks self df base k compression engine st Hk Hc)
    as [Hst _].
  destruct (Hst i Hi) as (b & Hb & _).
  split; [eauto|]. split; [apply chunk_blob_name_prefix|apply chunk_blob_name_ext].
Qed.

Lemma chunk_frames_concat df k :
  Pd.wf df → 0 < k → 0 < Pd.len df →
  Pd.concat
    ((λ i, Pd.iloc df (i * k) (Z.min ((i + 1) * k) (Pd.len df)))
       <$> seqZ 0 ((Pd.len df + k - 1) `div` k))
  = Ok df.
Proof.
  intros [Hnd Hrows] Hk Hlen.
  pose proof (ceil_div_bounds (Pd.len df) k ltac:(lia) Hk) as Hm. simpl in Hm.
  set (m := (Pd.len df + k - 1) `div` k) in *.
  rewrite (list_fmap_ext _
             (λ i, Pd.mkDataFrame (Pd.columns df)
                     (rows_between (Pd.rows df) (i * k)
                        (Z.min ((i + 1) * k) (Pd.len df))))).
  2: { intros n i [-> Hn]%lookup_seqZ. unfold Pd.iloc. f_equal.
       apply slice_rows_between; unfold Pd.len in *; nia. }
  rewrite (concat_same_columns (Pd.columns df)); [|done| |].
  - f_equal. destruct df as [cols rs]. simpl in *. f_equal.
    etrans; [|apply (chunks_cover rs k m); unfold Pd.len in *; simpl in *; lia].
    unfold Pd.len. simpl.
    generalize (seqZ 0 m). intros l.
    induction l as [|i l IH]; [done|].
    rewrite fmap_cons. cbn [flat_map Pd.rows]. by rewrite IH.
  - apply Forall_fmap, Forall_forall. intros i _. simpl. split; [done|].
    unfold rows_between. by apply Forall_take, Forall_drop.
  - assert (0 < m) by nia. rewrite seqZ_cons by done. done.
Qed.

(** C8 (amended): [read_parquet_chunked] reads, in lexical order of
    their names, the blobs whose names start with [base_blob_path] and
    end in [.parquet], concatenates the decoded frames in that order, and
    raises a [ValueError] when there is none. After a chunked write of at
    most 100000 chunks, the chunk blobs are read in ascending index
    order; when the container held no other matching blob and the table
    has rows, the result is the table that was written. *)
Theorem read_parquet_chunked_order self df base k compression engine st :
  (∀ s,
     Sorted String.le (consumed base s)
     ∧ consumed base s ≡ₚ matching_blobs base s
     ∧ (consumed base s = [] →
        read_parquet_chunked base None s
        = (Raise (ValueError ("No parquet files found at: " +:+ base)), s))
     ∧ (∀ frames,
          consumed base s ≠ [] → Forall2 (stored s) (consumed base s) frames →
          read_parquet_chunked base None s = (Pd.concat frames, s)))
  ∧ (0 < k → compression ∈ supported_compression →
     let m := (Pd.len df + k - 1) `div` k in
     let st' :=
       (write_parquet_chunked self df base k compression true engine st).2 in
     m ≤ 100000 →
     (chunk_blob_name base <$> seqZ 0 m) `sublist_of` consumed base st'
     ∧ ((∀ name, is_Some (st !! name) → Py.startswith name base = true →
                 Py.endswith name ".parquet" = true → False) →
        consumed base st' = chunk_blob_name base <$> seqZ 0 m
        ∧ (Pd.wf df → 0 < Pd.len df →
           read_parquet_chunked base None st' = (Ok df, st'))
        ∧ (Pd.len df = 0 →
           read_parquet_chunked base None st'
           = (Raise (ValueError ("No parquet files found at: " +:+ base)),
              st')))).
Proof.
  split.
  { intros s. split; [apply Sorted_consumed|]. split; [apply consumed_perm|].
    split.
    - intros Hnil. by rewrite read_parquet_chunked_unfold, Hnil.
    - intros frames Hne Hst. rewrite read_parquet_chunked_unfold.
      destruct (consumed base s) as [|b bs] eqn:E; [done|].
      unfold bind. by rewrite (for_each_read _ frames). }
  intros Hk Hc m st' Hm.
  set (names := chunk_blob_name base <$> seqZ 0 m).
  assert (StronglySorted String.le names) as Hnames.
  { apply Sorted_StronglySorted; [apply _|]. by apply Sorted_chunk_blob_names. }
  assert (NoDup names) as Hnd by apply NoDup_chunk_blob_names.
  assert (StronglySorted String.le (consumed base st')) as Hcons.
  { apply Sorted_StronglySorted; [apply _|]. apply Sorted_consumed. }
  assert (NoDup (consumed base st')) as Hndc.
  { rewrite consumed_perm. apply NoDup_matching_blobs. }
  assert (∀ x, x ∈ names → x ∈ consumed base st') as Hin.
  { intros x (i & -> & Hi%elem_of_seqZ)%list_elem_of_fmap.
    rewrite consumed_perm. apply chunk_names_matching; (done || lia). }
  split.
  { assert (filter (λ x, x ∈ names) (consumed base st') = names) as <-;
      [|apply sublist_filter].
    apply (StronglySorted_unique String.le).
    - by apply StronglySorted_filter.
    - done.
    - apply NoDup_Permutation; [by apply NoDup_filter|done|].
      intros x. rewrite list_elem_of_filter. split; [tauto|]. auto. }
  intros Hfree.
  destruct (written_chunks self df base k compression engine st Hk Hc)
    as [Hst Hother].
  fold m st' names in Hst, Hother.
  assert (consumed base st' = names) as Hcn.
  { apply (StronglySorted_unique String.le); [done..|].
    apply NoDup_Permutation; [done..|].
    intros x. split; [|auto]. rewrite consumed_perm.
    intros (Hsome & Hp & He)%elem_of_matching_blobs.
    destruct (decide (x ∈ names)) as [|Hx]; [done|].
    rewrite Hother in Hsome by done. destruct (Hfree x Hsome Hp He). }
  split; [done|]. split.
  - intros Hwf Hlen.
    pose proof (ceil_div_bounds (Pd.len df) k ltac:(lia) Hk) as Hb.
    simpl in Hb. fold m in Hb. assert (0 < m) as Hpos by nia.
    rewrite read_parquet_chunked_unfold, Hcn.
    assert (names = chunk_blob_name base <$> seqZ 0 m) as En by done.
    assert (names ≠ []) as Hne.
    { rewrite En. by rewrite seqZ_cons. }
    clearbody names. destruct names as [|n ns]; [done|].
    unfold bind.
    rewrite (for_each_read (n :: ns)
               ((λ i, Pd.iloc df (i * k) (Z.min ((i + 1) * k) (Pd.len df)))
                  <$> seqZ 0 m)).
    + unfold lift. by rewrite chunk_frames_concat.
    + rewrite En. apply Forall2_fmap, Forall_Forall2_diag, Forall_seqZ.
      intros i Hi. apply Hst. lia.
  - intros Hz.
    assert (m = 0) as Hm0.
    { pose proof (ceil_div_bounds (Pd.len df) k ltac:(lia) Hk) as Hb.
      simpl in Hb. fold m in Hb. nia. }
    rewrite read_parquet_chunked_unfold, Hcn. unfold names.
    by rewrite Hm0.
Qed.

End ChunkedRead.

(** * Further properties of the writer *)

(** ** Flat writes, conflicts and time stamps *)

Section FlatWriteEffects.
Context `{RT : Runtime}.

(** X1: a flat write touches at most one blob. When it raises, the
    container is as before; when it returns, exactly the blob of the URL
    is set, to the Parquet file of the frame, and without [overwrite] that
    name was free. *)
Theorem write_parquet_touches_one_blob
    self df name compression overwrite stamp engine now st :
  (∀ err st',
     write_parquet self df name compression overwrite stamp engine now st
     = (Raise err, st') → st' = st)
  ∧ (∀ url st',
       write_parquet self df name compression overwrite stamp engine now st
       = (Ok url, st') →
       ∃ final b,
         url = get_blob_url self final
         ∧ to_parquet df engine compression = Some b
         ∧ st' = <[final := b]> st
         ∧ (overwrite = false → st !! final = None)).
Proof.
  unfold write_parquet, bind, ret, raise, upload_file.
  split.
  - intros err st'.
    destruct stamp; [destruct (Py.rsplit1 "." _) as [[n x]|]|];
      try (by intros [= _ <-]);
      (destruct (to_parquet df engine compression); [|by intros [= _ <-]]);
      (destruct (st !! _); [destruct overwrite|]); by intros [= <-].
  - intros url st'.
    destruct stamp; [destruct (Py.rsplit1 "." _) as [[n x]|]|];
      try done;
      (destruct (to_parquet df engine compression) as [b|]; [|done]);
      (destruct (st !! _) eqn:E; [destruct overwrite|]); try done;
      intros [= <- <-]; eexists _, b; by repeat split.
Qed.

(** X2: without [overwrite], a flat write to a name that is taken raises
    the conflict of the storage service and leaves the blob as it is. *)
Theorem write_parquet_conflict self df name compression engine now st :
  compression ∈ supported_compression →
  is_Some (st !! ensure_extension name) →
  write_parquet self df name compression false false engine now st
  = (Raise (ResourceExistsError (ensure_extension name)), st).
Proof.
  intros Hc [old Hold].
  rewrite <- write_parquet_ensure.
  rewrite write_parquet_plain by apply ensure_extension_ext.
  destruct (to_parquet_supported df engine compression Hc) as [b ->].
  unfold upload_file. by rewrite Hold.
Qed.

(** X3: with [include_timestamp], the time stamp goes directly before the
    [.parquet] extension of the normalised name, whatever dots and slashes
    the name has. *)
Theorem write_parquet_timestamp_name self df name compression engine now st :
  compression ∈ supported_compression →
  ∃ stem b,
    ensure_extension name = stem +:+ ".parquet"
    ∧ to_parquet df engine compression = Some b
    ∧ write_parquet self df name compression true true engine now st
      = (Ok (get_blob_url self (stem +:+ "_" +:+ now +:+ ".parquet")),
         <[stem +:+ "_" +:+ now +:+ ".parquet" := b]> st).
Proof.
  intros Hc.
  destruct (endswith_inv _ _ (ensure_extension_ext name)) as [stem Hstem].
  destruct (to_parquet_supported df engine compression Hc) as [b Hb].
  exists stem, b. split; [done|]. split; [done|].
  unfold write_parquet, bind, ret. rewrite Hstem, rsplit1_parquet, Hb.
  unfold upload_file.
  change (stem +:+ "_" +:+ now +:+ "." +:+ "parquet")
    with (stem +:+ "_" +:+ now +:+ ".parquet").
  by destruct (st !! _).
Qed.

End FlatWriteEffects.

(** ** Failures part way, and what reads leave alone *)

Section LoopEffects.
Context `{RT : Runtime}.

Lemma for_each_app_fail {A B} (xs ys : list A) (x : A) (body : A → io B)
    st us st1 e st2 :
  for_each xs body st = (Ok us, st1) →
  body x st1 = (Raise e, st2) →
  for_each (xs ++ x :: ys) body st = (Raise e, st2).
Proof.
  revert st us. induction xs as [|x0 xs IH]; intros st us Hxs Hx.
  - injection Hxs as _ <-. simpl. unfold bind. by rewrite Hx.
  - simpl in *. unfold bind in *.
    destruct (body x0 st) as [[u|e0] st0]; [|done].
    destruct (for_each xs body st0) as [[us0|e0] st0'] eqn:E; [|done].
    injection Hxs as _ <-. by rewrite (IH st0 us0).
Qed.

(** X4: a chunked write does not roll back. Without [overwrite], when
    the name of chunk [j] is taken and the names before it are free, the
    call raises the conflict for chunk [j]; the chunks before [j] have
    been uploaded and stay, the blob under the name of chunk [j] is as it
    was, and no other blob has changed. *)
Theorem write_parquet_chunked_no_rollback
    self df base k compression engine st j old :
  0 < k → compression ∈ supported_compression →
  0 ≤ j < (Pd.len df + k - 1) `div` k →
  st !! chunk_blob_name base j = Some old →
  (∀ i, 0 ≤ i < j → st !! chunk_blob_name base i = None) →
  ∃ st',
    write_parquet_chunked self df base k compression false engine st
    = (Raise (ResourceExistsError (chunk_blob_name base j)), st')
    ∧ (∀ i, 0 ≤ i < j →
         stored st' (chunk_blob_name base i)
           (Pd.mkDataFrame (Pd.columns df)
              (rows_between (Pd.rows df) (i * k)
                 (Z.min ((i + 1) * k) (Pd.len df)))))
    ∧ st' !! chunk_blob_name base j = Some old
    ∧ (∀ name, (∀ i, 0 ≤ i < j → name ≠ chunk_blob_name base i) →
         st' !! name = st !! name).
Proof.
  intros Hk Hc Hj Hold Hfree.
  set (m := (Pd.len df + k - 1) `div` k) in *.
  pose proof (ceil_div_bounds (Pd.len df) k ltac:(unfold Pd.len; lia) Hk) as Hm.
  simpl in Hm. fold m in Hm.
  set (frame := λ i, Pd.iloc df (i * k) (Z.min ((i + 1) * k) (Pd.len df))).
  set (ws := (λ i, (chunk_blob_name base i, frame i)) <$> seqZ 0 j).
  exists (put_all engine compression st ws).
  assert (∀ name, name ∉ chunk_blob_name base <$> seqZ 0 j →
            put_all engine compression st ws !! name = st !! name) as Hother.
  { intros name Hname. apply lookup_put_all_other.
    unfold ws. by rewrite <- list_fmap_compose. }
  assert (chunk_blob_name base j ∉ chunk_blob_name base <$> seqZ 0 j) as Hj'.
  { intros (i & E & Hi%elem_of_seqZ)%list_elem_of_fmap.
    apply chunk_blob_name_inj in E; lia. }
  split; [|split; [|split]].
  - unfold write_parquet_chunked. rewrite decide_False by lia.
    unfold Py.range. fold m.
    replace m with (j + (1 + (m - j - 1))) by lia.
    rewrite seqZ_app, (seqZ_cons (0 + j)) by lia.
    eapply for_each_app_fail.
    + apply (for_each_write_parquet self (seqZ 0 j) (chunk_blob_name base) frame).
      * intros i _. apply chunk_blob_name_ext.
      * done.
      * right. split; [apply NoDup_chunk_blob_names|].
        intros i Hi%elem_of_seqZ. apply Hfree. lia.
    + rewrite write_parquet_plain by apply chunk_blob_name_ext.
      destruct (to_parquet_supported (frame (0 + j)) engine compression Hc)
        as [b Hb].
      fold (frame (0 + j)). rewrite Hb. unfold upload_file.
      replace (0 + j) with j by lia. fold ws.
      by rewrite Hother, Hold.
  - intros i Hi.
    assert (Pd.mkDataFrame (Pd.columns df)
              (rows_between (Pd.rows df) (i * k)
                 (Z.min ((i + 1) * k) (Pd.len df))) = frame i) as ->.
    { unfold frame, Pd.iloc. f_equal. symmetry.
      apply slice_rows_between; unfold Pd.len in *; nia. }
    apply lookup_put_all; [done| |].
    + unfold ws. rewrite <- list_fmap_compose. apply NoDup_chunk_blob_names.
    + apply list_elem_of_fmap. exists i. split; [done|].
      apply elem_of_seqZ. lia.
  - by rewrite Hother.
  - intros name Hname. apply Hother.
    intros (i & -> & Hi%elem_of_seqZ)%list_elem_of_fmap.
    apply (Hname i); [lia|done].
Qed.

(** X5: two chunks never share a blob name, whatever their indices, also
    beyond five digits; and every chunk name starts with the base path and
    ends in [.parquet]. *)
Theorem chunk_blob_names_distinct base i j :
  0 ≤ i → 0 ≤ j →
  (chunk_blob_name base i = chunk_blob_name base j → i = j)
  ∧ Py.startswith (chunk_blob_name base i) base = true
  ∧ Py.endswith (chunk_blob_name base i) ".parquet" = true.
Proof.
  intros Hi Hj. split; [by apply chunk_blob_name_inj|].
  split; [apply chunk_blob_name_prefix|apply chunk_blob_name_ext].
Qed.

(** X6: a partitioned write of a table without rows uploads nothing and
    returns an empty list, also with an empty list of partition columns,
    for any compression name and [overwrite]. *)
Theorem write_parquet_partitioned_no_rows
    self df base by_ compression overwrite engine st :
  Pd.rows df = [] → by_ ⊆ Pd.columns df →
  write_parquet_partitioned self df base by_ compression overwrite engine st
  = (Ok [], st).
Proof.
  intros Hrows Hsub. unfold write_parquet_partitioned.
  rewrite find_absent_none by done.
  unfold Pd.groupby, Pd.group_keys. rewrite Hrows. by destruct by_.
Qed.

End LoopEffects.

(** ** Appends in sequence, deletion and the callers *)

Section Compositions.
Context `{RT : Runtime}.



(** X9: deleting the blob of a flat write undoes it. After a write with
    [overwrite], [delete_blob] on the final name returns [True]; the blob
    then does not exist and reading it raises; when the name was free
    before the write, the container is back to what it was. Deleting a
    name that is not there raises and changes nothing. *)
Theorem delete_blob_after_write self df name compression engine engine' st :
  compression ∈ supported_compression →
  let final := ensure_extension name in
  let st1 :=
    (write_parquet self df name compression true false engine "" st).2 in
  ∃ st2,
    delete_blob final st1 = (Ok true, st2)
    ∧ blob_exists final st2 = (Ok false, st2)
    ∧ read_parquet final None None engine' st2
      = (Raise (ResourceNotFoundError final), st2)
    ∧ (∀ other, other ≠ final → st2 !! other = st !! other)
    ∧ (st !! final = None → st2 = st)
    ∧ delete_blob final st2 = (Raise (ResourceNotFoundError final), st2).
Proof.
  intros Hc final st1.
  destruct (write_parquet_overwrite self df name compression engine st Hc)
    as (b & Hb & Hw).
  unfold st1. rewrite Hw. simpl. fold final.
  exists (delete final st).
  assert (delete final st !! final = None) as Hgone by apply lookup_delete_eq.
  split; [|split; [|split; [|split; [|split]]]].
  - unfold delete_blob. by rewrite lookup_insert_eq, delete_insert_eq.
  - unfold blob_exists. rewrite Hgone.
    by rewrite bool_decide_eq_false_2 by (by intros [? ?]).
  - unfold read_parquet, bind, download_blob. by rewrite Hgone.
  - intros other Hne. by rewrite lookup_delete_ne.
  - intros Hfree. by apply delete_id.
  - unfold delete_blob. by rewrite Hgone.
Qed.


End Compositions.

(** ** read_parquet_partitioned *)

Section PartitionedRead.
Context `{RT : Runtime}.

Lemma read_parquet_partitioned_unfold base partition_filter st :
  read_parquet_partitioned base partition_filter st
  = match matching_blobs (search_prefix base partition_filter) st with
    | [] =>
        (Raise (ValueError ("No parquet files found at: "
                              +:+ search_prefix base partition_filter)), st)
    | blobs =>
        bind (for_each blobs (λ blob,
                bind (read_parquet blob None None "pyarrow")
                     (λ df, lift (add_partition_columns df (Py.split "/" blob)))))
             (λ dfs, lift (Pd.concat dfs)) st
    end.
Proof.
  unfold read_parquet_partitioned, bind at 1, list_blobs.
  fold (matching_blobs (search_prefix base partition_filter) st).
  by destruct (matching_blobs _ st).
Qed.

(** X11: when no blob of the container starts with the search prefix and
    ends in [.parquet], [read_parquet_partitioned] raises a [ValueError]
    that names the prefix (the base path without trailing slashes, then
    [/key=value] for each entry of the filter), and reads nothing. *)
Theorem read_parquet_partitioned_not_found base partition_filter st :
  (∀ name, is_Some (st !! name) →
           Py.startswith name (search_prefix base partition_filter) = true →
           Py.endswith name ".parquet" = true → False) →
  read_parquet_partitioned base partition_filter st
  = (Raise (ValueError ("No parquet files found at: "
                          +:+ search_prefix base partition_filter)), st).
Proof.
  intros Hnone. rewrite read_parquet_partitioned_unfold.
  destruct (matching_blobs _ st) as [|b bs] eqn:E; [done|].
  assert (b ∈ matching_blobs (search_prefix base partition_filter) st) as Hb
    by (rewrite E; left).
  apply elem_of_matching_blobs in Hb as (Hsome & Hp & He).
  destruct (Hnone b Hsome Hp He).
Qed.

(** X12: trailing slashes of the base path do not matter to
    [read_parquet_partitioned]. *)
Theorem read_parquet_partitioned_trailing_slash base partition_filter st :
  read_parquet_partitioned (base +:+ "/") partition_filter st
  = read_parquet_partitioned base partition_filter st.
Proof.
  unfold read_parquet_partitioned, search_prefix.
  by rewrite (rstrip_app_char "/" base).
Qed.

Lemma flat_map_perm {A B} (f : A → list B) l1 l2 :
  l1 ≡ₚ l2 → flat_map f l1 ≡ₚ flat_map f l2.
Proof.
  induction 1 as [|x l1 l2 _ IH|x y l|l1 l2 l3 _ IH1 _ IH2]; simpl.
  - done.
  - by f_equiv.
  - rewrite !app_assoc. f_equiv. apply Permutation_app_comm.
  - by etrans.
Qed.

Lemma for_each_fmap_ok {A B C} (f : A → B) (g : A → C) (body : B → io C)
    (xs : list A) st :
  (∀ x, x ∈ xs → body (f x) st = (Ok (g x), st)) →
  for_each (f <$> xs) body st = (Ok (g <$> xs), st).
Proof.
  induction xs as [|x xs IH]; intros Hbody; [done|].
  rewrite !fmap_cons. cbn [for_each]. unfold bind at 1.
  rewrite Hbody by left. unfold bind at 1.
  rewrite IH; [done|]. intros x' Hx'. apply Hbody. by right.
Qed.

Lemma length_drop_cells cols row by_ :
  length row = length cols →
  length (Pd.drop_cells cols row by_)
  = length (List.filter (λ c, bool_decide (c ∉ by_)) cols).
Proof.
  revert row. induction cols as [|c cols IH]; intros [|v row] Hlen;
    simpl in *; try done.
  destruct (decide (c ∈ by_)) as [Hin|Hout].
  - rewrite bool_decide_eq_false_2 by (by intros ?). apply IH. lia.
  - rewrite bool_decide_eq_true_2 by done. simpl. f_equal. apply IH. lia.
Qed.

Lemma add_partition_columns_raise e parts :
  foldl (λ acc part,
           match acc with
           | Ok df =>
               if Py.contains "=" part then
                 match Py.split1 "=" part with
                 | Some (key, value) => Ok (Pd.set_column df key (Pd.VStr value))
                 | None =>
                     Raise (ValueError "not enough values to unpack (expected 2, got 1)")
                 end
               else Ok df
           | Raise e => Raise e
           end)
        (Raise e) parts
  = Raise e.
Proof. by induction parts. Qed.

Lemma add_partition_columns_app df parts1 parts2 :
  add_partition_columns df (parts1 ++ parts2)
  = match add_partition_columns df parts1 with
    | Ok df' => add_partition_columns df' parts2
    | Raise e => Raise e
    end.
Proof.
  unfold add_partition_columns. rewrite foldl_app.
  destruct (foldl _ (Ok df) parts1); [done|].
  apply add_partition_columns_raise.
Qed.

Lemma add_partition_columns_skip df parts :
  Forall (λ p, Py.contains "=" p = false) parts →
  add_partition_columns df parts = Ok df.
Proof.
  unfold add_partition_columns.
  induction 1 as [|p parts Hp _ IH]; simpl; [done|]. by rewrite Hp.
Qed.

Lemma add_partition_columns_keys cols0 rows0 by_ k :
  length k = length by_ → NoDup by_ →
  (∀ col, col ∈ by_ → col ∉ cols0) →
  (∀ col, col ∈ by_ → Py.contains "=" col = false) →
  add_partition_columns (Pd.mkDataFrame cols0 rows0) (key_parts by_ k)
  = Ok (Pd.mkDataFrame (cols0 ++ by_)
          (map (λ r, r ++ map (λ v, Pd.VStr (Pd.str v)) k) rows0)).
Proof.
  revert cols0 rows0 k.
  induction by_ as [|c by_ IH]; intros cols0 rows0 [|v k] Hlen Hnd Hnew Heq;
    simpl in *; try done.
  { rewrite app_nil_r. unfold add_partition_columns. simpl. do 2 f_equal.
    rewrite <- (map_id rows0) at 1. apply map_ext. intros r.
    by rewrite app_nil_r. }
  apply NoDup_cons in Hnd as [Hc Hnd].
  change (key_parts (c :: by_) (v :: k))
    with ([c +:+ String "=" (Pd.str v)] ++ key_parts by_ k).
  rewrite add_partition_columns_app.
  assert (add_partition_columns (Pd.mkDataFrame cols0 rows0)
            [c +:+ String "=" (Pd.str v)]
          = Ok (Pd.mkDataFrame (cols0 ++ [c])
                  (map (λ r, r ++ [Pd.VStr (Pd.str v)]) rows0))) as ->.
  { unfold add_partition_columns. simpl.
    rewrite contains_app. simpl. rewrite orb_true_r.
    rewrite split1_app by (apply Heq; left).
    unfold Pd.set_column. simpl. rewrite decide_False; [done|].
    apply Hnew. left. }
  rewrite IH.
  - rewrite <- app_assoc. simpl. do 2 f_equal. rewrite map_map.
    apply map_ext. intros r. by rewrite <- app_assoc.
  - lia.
  - done.
  - intros col Hcol [Hin|Hin%list_elem_of_singleton]%elem_of_app.
    + apply (Hnew col); [by right|done].
    + by subst.
  - intros col Hcol. apply Heq. by right.
Qed.

(** X13: a partitioned write can be read back. For a table with rows,
    columns of one kind each and no missing partition value, written
    under distinct partition columns that leave at least one other column
    and whose names have no ["/"] or ["="], with values whose text has no
    ["/"], a base path without ["="], and no other matching blob in the
    container, [read_parquet_partitioned] returns the columns outside the
    partition followed by the partition columns, and the rows of the table
    up to order, each with its partition values as text. *)
Theorem read_parquet_partitioned_after_write
    self df base by_ compression engine st :
  Pd.wf df → Pd.typed df → NoDup by_ → by_ ≠ [] → by_ ⊆ Pd.columns df →
  ¬ Pd.columns df ⊆ by_ →
  Pd.rows df ≠ [] →
  (∀ r, r ∈ Pd.rows df →
        Pd.has_null (Pd.row_key (Pd.columns df) by_ r) = false) →
  compression ∈ supported_compression →
  Py.contains "=" base = false →
  (∀ col, col ∈ by_ →
          Py.contains "/" col = false ∧ Py.contains "=" col = false) →
  (∀ r col, r ∈ Pd.rows df → col ∈ by_ →
            Py.contains "/" (Pd.str (Pd.cell (Pd.columns df) r col)) = false) →
  (∀ name, is_Some (st !! name) →
           Py.startswith name (Py.rstrip "/" base) = true →
           Py.endswith name ".parquet" = true → False) →
  let st' :=
    (write_parquet_partitioned self df base by_ compression true engine st).2 in
  ∃ res,
    read_parquet_partitioned base None st' = (Ok res, st')
    ∧ Pd.columns res
      = List.filter (λ c, bool_decide (c ∉ by_)) (Pd.columns df) ++ by_
    ∧ Pd.rows res ≡ₚ restored_row (Pd.columns df) by_ <$> Pd.rows df.
Proof.
  intros Hwf Htyped Hnd Hne Hsub Hother Hrows Hnn Hc Hbase Hcols Hvals Hfree
    st'.
  set (cols := Pd.columns df) in *.
  set (cols0 := List.filter (λ c, bool_decide (c ∉ by_)) cols).
  set (keys := Pd.group_keys df by_) in *.
  set (name := λ k, partition_blob_name base by_
                      (Pd.group_name_of scalar_group_names k)).
  set (payload := λ k, Pd.mkDataFrame cols0
                         (map (λ r, Pd.drop_cells cols r by_)
                              (Pd.group_rows df by_ k))).
  set (F := λ k, Pd.mkDataFrame (cols0 ++ by_)
                   (map (λ r, r ++ map (λ v, Pd.VStr (Pd.str v)) k)
                        (Pd.rows (payload k)))).
  assert (st' = put_all engine compression st
                  ((λ k, (name k, payload k)) <$> keys)) as Hst'.
  { unfold st'. rewrite write_parquet_partitioned_run by auto. simpl.
    unfold partition_outputs. by rewrite <- list_fmap_compose. }
  clearbody st'.
  assert (∀ k, k ∈ keys →
            length k = length by_
            ∧ Forall (λ v, Py.contains "/" (Pd.str v) = false) k) as Hkey.
  { intros k (_ & r & Hr & <-)%group_keys_spec. unfold Pd.row_key. split.
    - by rewrite length_map.
    - apply Forall_fmap, Forall_forall. intros col Hcol. by apply Hvals. }
  assert (∀ k1 k2, k1 ∈ keys → k2 ∈ keys → name k1 = name k2 → k1 = k2)
    as Hname_inj.
  { intros k1 k2 H1 H2 E.
    apply (partition_names_inj df base by_); try done.
    intros col Hcol. by apply Hcols. }
  assert (NoDup keys) as Hndk
    by apply NoDup_StronglySorted, group_keys_sorted.
  assert (NoDup (name <$> keys)) as Hndn by (by apply NoDup_fmap_2_strong).
  assert (∀ k, k ∈ keys → stored st' (name k) (payload k)) as Hstored.
  { intros k Hk. rewrite Hst'. apply lookup_put_all; [done| |].
    - by rewrite <- list_fmap_compose.
    - apply list_elem_of_fmap. eauto. }
  assert (matching_blobs (Py.rstrip "/" base) st' ≡ₚ name <$> keys) as Hmatch.
  { apply NoDup_Permutation; [apply NoDup_matching_blobs|done|].
    intros x. rewrite elem_of_matching_blobs. split.
    - intros (Hsome & Hp & He).
      destruct (decide (x ∈ name <$> keys)) as [|Hx]; [done|].
      rewrite Hst', lookup_put_all_other in Hsome
        by (by rewrite <- list_fmap_compose).
      destruct (Hfree x Hsome Hp He).
    - intros (k & -> & Hk)%list_elem_of_fmap.
      destruct (Hstored k Hk) as (b & Hb & _).
      split; [eauto|]. split; [|apply partition_blob_name_ext].
      unfold name, partition_blob_name.
      destruct (rstrip_prefix "/" base) as [t Ht].
      generalize (Py.rstrip "/" base) Ht. intros p ->.
      rewrite app_string_assoc. apply startswith_app. }
  apply Permutation_map_inv in Hmatch as (ks' & Hmatch & Hperm).
  assert (∀ k, k ∈ ks' → k ∈ keys) as Hks' by (intros k; by rewrite Hperm).
  assert (∀ k, k ∈ ks' →
            bind (read_parquet (name k) None None "pyarrow")
                 (λ d, lift (add_partition_columns d (Py.split "/" (name k))))
                 st'
            = (Ok (F k), st')) as Hbody.
  { intros k Hk%Hks'. destruct (Hkey k Hk) as [Hlen Hslash].
    unfold bind. rewrite (read_parquet_stored st' (name k) (payload k))
      by auto.
    unfold lift, name. rewrite split_partition_blob_name; try done.
    2: { intros col Hcol. by apply Hcols. }
    rewrite add_partition_columns_app, add_partition_columns_skip
      by (by apply contains_split).
    rewrite add_partition_columns_app.
    unfold payload at 1. rewrite add_partition_columns_keys; try done.
    - intros col Hcol Hin. unfold cols0 in Hin.
      apply list_elem_of_In, filter_In in Hin as [_ Hin].
      by apply bool_decide_eq_true_1 in Hin.
    - intros col Hcol. by apply Hcols. }
  assert (NoDup (cols0 ++ by_)) as Hndc.
  { apply NoDup_app. split; [|split; [|done]].
    - apply NoDup_ListNoDup, List.NoDup_filter, NoDup_ListNoDup, Hwf.
    - intros col Hin Hby. unfold cols0 in Hin.
      apply list_elem_of_In, filter_In in Hin as [_ Hin].
      by apply bool_decide_eq_true_1 in Hin. }
  assert (∀ k r, r ∈ Pd.group_rows df by_ k →
            r ∈ Pd.rows df ∧ Pd.row_key cols by_ r = k) as Hgroup.
  { intros k r [Hr Hk]%list_elem_of_In%filter_In.
    split; [by apply list_elem_of_In|]. by apply bool_decide_eq_true_1 in Hk. }
  exists (Pd.mkDataFrame (cols0 ++ by_) (flat_map Pd.rows (F <$> ks'))).
  split; [|split; [done|]].
  - rewrite read_parquet_partitioned_unfold.
    change (search_prefix base None) with (Py.rstrip "/" base).
    assert (ks' ≠ []) as Hks'ne.
    { intros ->. apply Permutation_nil_r in Hperm.
      assert (∃ r, r ∈ Pd.rows df) as [r Hr]
        by (revert Hrows; destruct (Pd.rows df); [done|eexists; left]).
      assert (Pd.row_key cols by_ r ∈ keys) as Hin.
      { apply group_keys_spec. split; [by apply Hnn|]. by exists r. }
      rewrite Hperm in Hin. by apply elem_of_nil in Hin. }
    destruct (matching_blobs (Py.rstrip "/" base) st') as [|b bs];
      [by destruct ks'|].
    unfold bind at 1. rewrite Hmatch.
    change (map name ks') with (name <$> ks').
    rewrite (for_each_fmap_ok name F _ ks' st' Hbody).
    unfold lift. rewrite (concat_same_columns (cols0 ++ by_)); [done|done| |].
    + apply Forall_fmap, Forall_forall. intros k Hk%Hks'. simpl.
      split; [done|]. apply Forall_forall.
      intros r' (r0 & <- & (r & <- & Hr)%in_map_iff)%list_elem_of_In%in_map_iff.
      apply list_elem_of_In, Hgroup in Hr as [Hr _].
      destruct (Hkey k Hk) as [Hlen _]. destruct Hwf as [_ Hrl].
      rewrite Forall_forall in Hrl.
      rewrite !length_app, length_map, Hlen.
      by rewrite length_drop_cells by (by apply Hrl).
    + by destruct ks'.
  - simpl. rewrite (flat_map_perm Pd.rows (F <$> ks') (F <$> keys))
      by (by rewrite Hperm).
    rewrite <- (groups_cover df by_ Hnn). fold keys cols.
    assert (∀ k, Pd.rows (F k)
                 = restored_row cols by_ <$> Pd.group_rows df by_ k) as HF.
    { intros k. simpl. rewrite map_map. apply map_ext_in.
      intros r Hr. apply list_elem_of_In, Hgroup in Hr as [_ <-].
      unfold restored_row, Pd.row_key. by rewrite map_map. }
    clear -HF. induction keys as [|k ks IH]; [done|].
    rewrite fmap_cons. cbn [flat_map]. rewrite fmap_app, HF. by f_equiv.
Qed.

End PartitionedRead.

(** ** Chunked reads with a processing function, and rewrites *)

Section ProcessedRead.
Context `{RT : Runtime}.

Lemma read_parquet_chunked_unfold_with base process_func st :
  read_parquet_chunked base process_func st
  = match consumed base st with
    | [] => (Raise (ValueError ("No parquet files found at: " +:+ base)), st)
    | blobs =>
        bind (for_each blobs (λ blob,
                bind (read_parquet blob None None "pyarrow")
                     (λ df, match process_func with
                            | Some f => lift (f df)
                            | None => ret df
                            end)))
             (λ dfs, lift (Pd.concat dfs)) st
    end.
Proof.
  unfold read_parquet_chunked, bind at 1, list_blobs.
  fold (matching_blobs base st). fold (consumed base st).
  by destruct (consumed base st).
Qed.

Lemma for_each_read_process (f : Pd.DataFrame → result Pd.DataFrame)
    blobs frames gs st :
  Forall2 (stored st) blobs frames →
  Forall2 (λ d g, f d = Ok g) frames gs →
  for_each blobs (λ blob,
    bind (read_parquet blob None None "pyarrow") (λ df, lift (f df))) st
  = (Ok gs, st).
Proof.
  intros Hst. revert gs.
  induction Hst as [|name df blobs frames Hst _ IH]; intros gs Hf.
  { by apply Forall2_nil_inv_l in Hf as ->. }
  apply Forall2_cons_inv_l in Hf as (g & gs' & Hg & Hf & ->).
  simpl. unfold bind at 1 2. rewrite (read_parquet_stored st name df Hst).
  unfold lift at 1. rewrite Hg. unfold bind at 1. by rewrite (IH gs').
Qed.

(** X14: [read_parquet_chunked] with a [process_func] applies it to the
    decoded chunks in the order of their names and concatenates the
    results; when it raises on a chunk after succeeding on those before,
    the call raises that error. The container is unchanged either way. *)
Theorem read_parquet_chunked_process base
    (f : Pd.DataFrame → result Pd.DataFrame) st frames :
  consumed base st ≠ [] →
  Forall2 (stored st) (consumed base st) frames →
  (∀ gs, Forall2 (λ d g, f d = Ok g) frames gs →
         read_parquet_chunked base (Some f) st = (Pd.concat gs, st))
  ∧ (∀ pre d post gs e,
       frames = pre ++ d :: post →
       Forall2 (λ d g, f d = Ok g) pre gs → f d = Raise e →
       read_parquet_chunked base (Some f) st = (Raise e, st)).
Proof.
  intros Hne Hst. split.
  - intros gs Hgs. rewrite read_parquet_chunked_unfold_with.
    destruct (consumed base st) as [|b bs] eqn:E; [done|].
    unfold bind at 1. by rewrite (for_each_read_process f _ frames gs).
  - intros pre d post gs e -> Hgs He.
    rewrite read_parquet_chunked_unfold_with.
    destruct (consumed base st) as [|b bs] eqn:E; [done|].
    apply Forall2_app_inv_r in Hst as (bpre & bpost & Hpre & Hpost & Eb).
    apply Forall2_cons_inv_r in Hpost as (b0 & bpost' & Hb0 & _ & ->).
    rewrite Eb. unfold bind at 1.
    rewrite (for_each_app_fail bpre bpost' b0 _ st gs st e st); [done| |].
    + by apply (for_each_read_process f _ pre).
    + unfold bind. rewrite (read_parquet_stored st b0 d Hb0).
      unfold lift. by rewrite He.
Qed.

(** X15: a chunked write never removes the chunks of an earlier write.
    After a table of [m1] chunks, a second write of [m2 < m1] chunks under
    the same base path leaves the chunks [m2 .. m1-1] of the first table in
    place, where [read_parquet_chunked] will find them. *)
Theorem write_parquet_chunked_keeps_old_chunks
    self df1 df2 base k1 k2 c1 c2 e1 e2 st i :
  0 < k1 → 0 < k2 →
  c1 ∈ supported_compression → c2 ∈ supported_compression →
  let m1 := (Pd.len df1 + k1 - 1) `div` k1 in
  let m2 := (Pd.len df2 + k2 - 1) `div` k2 in
  let st1 := (write_parquet_chunked self df1 base k1 c1 true e1 st).2 in
  let st2 := (write_parquet_chunked self df2 base k2 c2 true e2 st1).2 in
  m2 ≤ i < m1 →
  stored st2 (chunk_blob_name base i)
    (Pd.iloc df1 (i * k1) (Z.min ((i + 1) * k1) (Pd.len df1)))
  ∧ chunk_blob_name base i ∈ consumed base st2.
Proof.
  intros Hk1 Hk2 Hc1 Hc2 m1 m2 st1 st2 Hi.
  pose proof (ceil_div_bounds (Pd.len df2) k2 ltac:(unfold Pd.len; lia) Hk2)
    as Hm2.
  simpl in Hm2. fold m2 in Hm2.
  assert (0 ≤ m2) as Hm2' by (unfold Pd.len in Hm2; nia).
  destruct (written_chunks self df1 base k1 c1 e1 st Hk1 Hc1) as [Hst1 _].
  destruct (written_chunks self df2 base k2 c2 e2 st1 Hk2 Hc2) as [_ Hother].
  fold m1 st1 in Hst1. fold m2 st2 in Hother.
  assert (stored st2 (chunk_blob_name base i)
            (Pd.iloc df1 (i * k1) (Z.min ((i + 1) * k1) (Pd.len df1))))
    as Hstored.
  { destruct (Hst1 i ltac:(lia)) as (b & Hb & Hdec).
    exists b. split; [|done]. rewrite Hother; [done|].
    intros (j & E & Hj%elem_of_seqZ)%list_elem_of_fmap.
    apply chunk_blob_name_inj in E; lia. }
  split; [done|].
  unfold consumed, Py.sorted. rewrite merge_sort_Permutation.
  apply elem_of_matching_blobs. destruct Hstored as (b & Hb & _).
  split; [eauto|].
  split; [apply chunk_blob_name_prefix|apply chunk_blob_name_ext].
Qed.

End ProcessedRead.

(** ** The blob names of [AzureBlobStorageClient] *)

Section BlobClientNames.

Lemma contains_rsplit1 c s :
  Py.contains c s = true → is_Some (Py.rsplit1 c s).
Proof.
  induction s as [|a s IH]; simpl; [done|].
  destruct (Py.rsplit1 c s) as [[h t]|]; [by eauto|].
  destruct (Ascii.eqb a c); [by eauto|]. simpl. intros H.
  by destruct (IH H).
Qed.

Lemma rsplit1_none c s : Py.contains c s = false → Py.rsplit1 c s = None.
Proof.
  induction s as [|a s IH]; simpl; [done|].
  intros [Ha Hs]%orb_false_elim. by rewrite IH, Ha.
Qed.

Lemma rsplit1_app c a b :
  Py.contains c b = false → Py.rsplit1 c (a +:+ String c b) = Some (a, b).
Proof.
  intros Hb. induction a as [|x a IH].
  - change ("" +:+ String c b) with (String c b). simpl.
    by rewrite (rsplit1_none c b Hb), Ascii.eqb_refl.
  - rewrite app_string_cons. simpl. by rewrite IH.
Qed.

Lemma with_timestamp_ok blob_name default_ext now :
  ∃ stamped, AzureBlob.with_timestamp blob_name default_ext now = Ok stamped.
Proof.
  unfold AzureBlob.with_timestamp.
  destruct (Py.contains "." blob_name) eqn:E; [|by eauto].
  destruct (contains_rsplit1 _ _ E) as [[name ext] ->]. by eauto.
Qed.

Lemma with_timestamp_dot a b default_ext now :
  Py.contains "." b = false →
  AzureBlob.with_timestamp (a +:+ "." +:+ b) default_ext now
  = Ok (a +:+ "_" +:+ now +:+ "." +:+ b).
Proof.
  intros Hb. unfold AzureBlob.with_timestamp.
  change ("." +:+ b) with (String "." b).
  replace (Py.contains "." (a +:+ String "." b)) with true
    by (rewrite contains_app; simpl; by rewrite orb_true_r).
  by rewrite rsplit1_app.
Qed.

(** X16: [upload_dataframe_csv] and [upload_html] always upload under a
    name that ends in [.csv] and [.html], with or without a time stamp and
    whatever the given name is; the unpacking of the split name never
    fails. Without a time stamp a name that has the extension is kept. *)
Theorem upload_names_keep_extension {account csv_kwargs : Type}
    (sdk_upload_blob :
       string → string → string → bool → option string →
       option (list (string * string)) → account → result unit * account)
    (to_csv : Pd.DataFrame → csv_kwargs → string)
    self df kwargs html blob_name container_name overwrite include_timestamp
    now st :
  (∃ final,
     Py.endswith final ".csv" = true
     ∧ AzureBlob.upload_dataframe_csv account sdk_upload_blob csv_kwargs to_csv
         self df blob_name container_name overwrite include_timestamp now
         kwargs st
       = AzureBlob.upload_blob account sdk_upload_blob self (to_csv df kwargs)
           final container_name (Some "text/csv") overwrite None st
     ∧ (include_timestamp = false → Py.endswith blob_name ".csv" = true →
        final = blob_name))
  ∧ (∃ final,
       Py.endswith final ".html" = true
       ∧ AzureBlob.upload_html account sdk_upload_blob self html blob_name
           container_name overwrite include_timestamp now st
         = AzureBlob.upload_blob account sdk_upload_blob self html final
             container_name (Some "text/html") overwrite None st
       ∧ (include_timestamp = false → Py.endswith blob_name ".html" = true →
          final = blob_name)).
Proof.
  split.
  - unfold AzureBlob.upload_dataframe_csv.
    destruct include_timestamp.
    + destruct (with_timestamp_ok blob_name "csv" now) as [stamped ->].
      eexists. split; [|split; [reflexivity|done]].
      destruct (Py.endswith stamped ".csv") eqn:E; simpl; [done|].
      apply endswith_app.
    + eexists. split; [|split; [reflexivity|]].
      * destruct (Py.endswith blob_name ".csv") eqn:E; simpl; [done|].
        apply endswith_app.
      * intros _ ->. done.
  - unfold AzureBlob.upload_html.
    destruct include_timestamp.
    + destruct (with_timestamp_ok blob_name "html" now) as [stamped ->].
      eexists. split; [|split; [reflexivity|done]].
      destruct (Py.endswith stamped ".html") eqn:E; simpl; [done|].
      apply endswith_app.
    + eexists. split; [|split; [reflexivity|]].
      * destruct (Py.endswith blob_name ".html") eqn:E; simpl; [done|].
        apply endswith_app.
      * intros _ ->. done.
Qed.

(** X17: with [include_timestamp], [upload_dataframe_csv] puts the time
    stamp before the last dot of the given name, wherever that dot is, and
    then checks the extension: [stem.csv] is stored as [stem_<now>.csv], a
    name without any dot too, and a name [a.b] whose last part [b] is not
    an extension [csv] becomes [a_<now>.b.csv]. *)
Theorem upload_dataframe_csv_timestamp_name {account csv_kwargs : Type}
    (sdk_upload_blob :
       string → string → string → bool → option string →
       option (list (string * string)) → account → result unit * account)
    (to_csv : Pd.DataFrame → csv_kwargs → string)
    self df kwargs container_name overwrite now st :
  let upload name :=
    AzureBlob.upload_dataframe_csv account sdk_upload_blob csv_kwargs to_csv
      self df name container_name overwrite true now kwargs st in
  let stored_as final :=
    AzureBlob.upload_blob account sdk_upload_blob self (to_csv df kwargs)
      final container_name (Some "text/csv") overwrite None st in
  (∀ stem, upload (stem +:+ ".csv")
           = stored_as (stem +:+ "_" +:+ now +:+ ".csv"))
  ∧ (∀ stem, Py.contains "." stem = false →
             upload stem = stored_as (stem +:+ "_" +:+ now +:+ ".csv"))
  ∧ (∀ a b, Py.contains "." b = false →
            Py.endswith (a +:+ "_" +:+ now +:+ "." +:+ b) ".csv" = false →
            upload (a +:+ "." +:+ b)
            = stored_as (a +:+ "_" +:+ now +:+ "." +:+ b +:+ ".csv")).
Proof.
  intros upload stored_as. unfold upload, stored_as.
  unfold AzureBlob.upload_dataframe_csv. split; [|split].
  - intros stem. change (stem +:+ ".csv") with (stem +:+ "." +:+ "csv").
    rewrite with_timestamp_dot by done.
    change (stem +:+ "_" +:+ now +:+ "." +:+ "csv")
      with (stem +:+ "_" +:+ now +:+ ".csv").
    replace (stem +:+ "_" +:+ now +:+ ".csv")
      with ((stem +:+ "_" +:+ now) +:+ ".csv")
      by (by rewrite !app_string_assoc).
    by rewrite endswith_app.
  - intros stem Hstem. unfold AzureBlob.with_timestamp. rewrite Hstem.
    change (stem +:+ "_" +:+ now +:+ "." +:+ "csv")
      with (stem +:+ "_" +:+ now +:+ ".csv").
    replace (stem +:+ "_" +:+ now +:+ ".csv")
      with ((stem +:+ "_" +:+ now) +:+ ".csv")
      by (by rewrite !app_string_assoc).
    by rewrite endswith_app.
  - intros a b Hb Hext. rewrite with_timestamp_dot by done.
    rewrite Hext. simpl. by rewrite !app_string_assoc.
Qed.

End BlobClientNames.

(** ** Worked examples on the concrete runtime *)

Section Examples.
Import Demo.

Lemma supported_snappy : "snappy" ∈ supported_compression.
Proof. compute_done. Qed.

Lemma wf_years : Pd.wf years.
Proof. split; [compute_done|]. repeat constructor. Qed.

Lemma typed_years : Pd.typed years.
Proof. repeat constructor. Qed.

Lemma years_other_column : ¬ Pd.columns years ⊆ ["year"].
Proof.
  intros H. assert ("month" ∈ ["year"]) as Hin by (apply H; compute_done).
  apply elem_of_cons in Hin as [?|Hin]; [done|]. by apply elem_of_nil in Hin.
Qed.

Lemma years_values_no_slash r col :
  r ∈ Pd.rows years → col ∈ ["year"] →
  Py.contains "/" (Pd.str (Pd.cell (Pd.columns years) r col)) = false.
Proof.
  unfold years, table. simpl.
  rewrite !elem_of_cons, !elem_of_nil.
  intros [->|[->|[->|[]]]] [->|[]]; reflexivity.
Defined.

Lemma empty_container_free (P : string → Prop) :
  ∀ name, is_Some ((∅ : gmap string (@blob runtime)) !! name) → P name.
Proof. intros name [b Hb]. by rewrite lookup_empty in Hb. Defined.

(** Three rows and a chunk size of -1: no error, no upload. *)
Lemma write_parquet_chunked_nonpositive_witness :
  write_parquet_chunked writer years "base" (-1) "snappy" true "pyarrow" ∅
  = (Ok [], ∅).
Proof.
  destruct (write_parquet_chunked_nonpositive writer years "base" (-1) "snappy"
              true "pyarrow" ∅ ltac:(lia)) as (_ & Hmany & _).
  apply Hmany; [lia|unfold Pd.len; simpl; lia].
Defined.

(** C1, as stated, fails: no rows and a chunk size of -1 give no error
    and two uploads. *)
Lemma write_parquet_chunked_negative_uploads :
  let run :=
    write_parquet_chunked writer no_rows "base" (-1) "snappy" true "pyarrow" ∅ in
  run.1 = Ok [get_blob_url writer "base/chunk_00000.parquet";
              get_blob_url writer "base/chunk_00001.parquet"]
  ∧ run.2 !! "base/chunk_00000.parquet" = Some (Parquet no_rows "snappy")
  ∧ run.2 !! "base/chunk_00001.parquet" = Some (Parquet no_rows "snappy")
  ∧ ¬ ∃ e, run = (Raise e, ∅).
Proof.
  split; [vm_compute; reflexivity|]. split; [vm_compute; reflexivity|].
  split; [vm_compute; reflexivity|].
  intros [e H]. apply (f_equal fst) in H. vm_compute in H. discriminate H.
Qed.

(** Three rows in chunks of two. *)
Lemma write_parquet_chunked_coverage_witness :
  ∃ st',
    write_parquet_chunked writer years "base" 2 "snappy" true "pyarrow" ∅
    = (Ok [get_blob_url writer "base/chunk_00000.parquet";
           get_blob_url writer "base/chunk_00001.parquet"], st')
    ∧ stored st' "base/chunk_00000.parquet"
        (table ["year"; "month"; "v"]
           [ [Pd.VInt 2024; Pd.VInt 1; Pd.VInt 30];
             [Pd.VInt 2023; Pd.VInt 1; Pd.VInt 10] ])
    ∧ stored st' "base/chunk_00001.parquet"
        (table ["year"; "month"; "v"]
           [ [Pd.VInt 2023; Pd.VInt 2; Pd.VInt 20] ]).
Proof.
  assert (true = true ∨
          ∀ i, 0 ≤ i →
               (∅ : gmap string (@blob runtime)) !! chunk_blob_name "base" i
               = None) as How by (by left).
  destruct (write_parquet_chunked_coverage writer years "base" 2 "snappy" true
              "pyarrow" ∅ ltac:(lia) supported_snappy How)
    as (m & st' & Hrun & Hm & Hst & Hnames & _).
  assert (m = 2) as -> by (unfold Pd.len in Hm; simpl in Hm; lia).
  exists st'. split; [exact Hrun|]. split.
  - pose proof (Hst 0 ltac:(lia)) as H0.
    rewrite (Hnames 0) in H0 by lia. exact H0.
  - pose proof (Hst 1 ltac:(lia)) as H1.
    rewrite (Hnames 1) in H1 by lia. exact H1.
Defined.

Lemma missing_year_by : ["year"] ⊆ Pd.columns missing_year.
Proof. compute_done. Qed.

(** C3, as stated, fails: the row without a year is in no blob; two rows
    whose partition values have slashes are written to one name, so that
    only the second write is left; and with no partition column nothing is
    written at all. *)
Lemma write_parquet_partitioned_drops_missing :
  ["year"] ⊆ Pd.columns missing_year
  ∧ write_parquet_partitioned writer missing_year "base" ["year"] "snappy" true
      "pyarrow" ∅
    = (Ok [get_blob_url writer "base/year=2023/data.parquet"],
       {[ "base/year=2023/data.parquet"
            := Parquet (table ["v"] [[Pd.VInt 20]]) "snappy" ]})
  ∧ length (Pd.rows missing_year) = 2%nat
  ∧ ¬ partition_exhaustive missing_year ["year"]
        (partition_outputs missing_year "base" ["year"])
  ∧ write_parquet_partitioned writer slashes "base" ["a"; "b"] "snappy" true
      "pyarrow" ∅
    = (Ok [get_blob_url writer "base/a=1/b=2/b=3/data.parquet";
           get_blob_url writer "base/a=1/b=2/b=3/data.parquet"],
       {[ "base/a=1/b=2/b=3/data.parquet"
            := Parquet (table ["v"] [[Pd.VInt 10]]) "snappy" ]})
  ∧ write_parquet_partitioned writer years "base" [] "snappy" true "pyarrow" ∅
    = (Raise (ValueError "No group keys passed!"), ∅).
Proof.
  split; [apply missing_year_by|]. split; [vm_compute; reflexivity|].
  split; [done|]. split; [|split; vm_compute; reflexivity].
  intros H%Permutation_length. vm_compute in H. discriminate H.
Qed.

Lemma years_by : ["year"] ⊆ Pd.columns years.
Proof. compute_done. Qed.

Lemma years_no_null r :
  r ∈ Pd.rows years →
  Pd.has_null (Pd.row_key (Pd.columns years) ["year"] r) = false.
Proof.
  unfold years, table. simpl.
  rewrite !elem_of_cons, elem_of_nil. intros [->|[->|[->|[]]]]; reflexivity.
Defined.

(** The three rows by year. *)
Lemma write_parquet_partitioned_exhaustive_witness :
  let outs := partition_outputs years "base" ["year"] in
  let st' := put_all "pyarrow" "snappy" ∅ (snd <$> outs) in
  write_parquet_partitioned writer years "base" ["year"] "snappy" true
    "pyarrow" ∅
  = (Ok ((λ o, get_blob_url writer o.2.1) <$> outs), st')
  ∧ NoDup (fst <$> outs)
  ∧ NoDup ((λ o, o.2.1) <$> outs)
  ∧ Forall (λ o, stored st' o.2.1 o.2.2 ∧ Pd.columns o.2.2 ≠ []) outs
  ∧ (∀ name, name ∉ (λ o, o.2.1) <$> outs →
             st' !! name = (∅ : gmap string (@blob runtime)) !! name)
  ∧ Forall (λ o, o.2.1
                 = "base" +:+ "/"
                     +:+ Py.join "/"
                           (map (λ '(col, val), col +:+ "=" +:+ Pd.str val)
                                (zip ["year"] o.1))
                     +:+ "/data.parquet") outs
  ∧ Forall (λ o, Forall (λ r, Pd.row_key (Pd.columns years) ["year"]
                                (restore_cells (Pd.columns years) ["year"] o.1 r)
                              = o.1)
                   (Pd.rows o.2.2)) outs
  ∧ partition_exhaustive years ["year"] outs.
Proof.
  apply (write_parquet_partitioned_exhaustive writer years "base" ["year"]
           "snappy" "pyarrow" ∅);
    [apply wf_years|apply typed_years|done|apply years_by
    |apply years_other_column|apply years_no_null
    |by intros col [->|[]%elem_of_nil]%elem_of_cons
    |apply years_values_no_slash|apply supported_snappy].
Defined.


Lemma write_parquet_partitioned_validates_witness :
  ∃ col,
    col ∈ ["year"; "day"] ∧ (col ∉ Pd.columns years)
    ∧ write_parquet_partitioned writer years "base" ["year"; "day"] "snappy"
        true "pyarrow" with_years
      = (Raise (ValueError
                  ("Partition column '" +:+ col +:+ "' not found in DataFrame")),
         with_years).
Proof.
  apply (write_parquet_partitioned_validates writer years "base"
           ["year"; "day"] "snappy" true "pyarrow" with_years).
  exists "day". split; compute_done.
Defined.


Lemma years_chunk_count : (Pd.len years + 2 - 1) `div` 2 ≤ 100000.
Proof. by vm_compute. Qed.

Lemma read_parquet_chunked_order_witness :
  let st' :=
    (write_parquet_chunked writer years "base" 2 "snappy" true "pyarrow" ∅).2 in
  consumed "base" st' = chunk_blob_name "base" <$> seqZ 0 2
  ∧ read_parquet_chunked "base" None st' = (Ok years, st').
Proof.
  destruct (proj2 (read_parquet_chunked_order writer years "base" 2 "snappy"
                     "pyarrow" ∅) ltac:(lia) supported_snappy
              years_chunk_count) as [_ H].
  destruct (H (empty_container_free _)) as (Hc & Hr & _).
  split; [exact Hc|]. apply Hr; [apply wf_years|by vm_compute].
Defined.

Lemma long_table_len : Pd.len long_table = 100001.
Proof.
  unfold Pd.len, long_table, table. cbn [Pd.rows].
  rewrite length_replicate. lia.
Qed.

(** C8, as stated, fails: with 100001 chunks the blobs are not read in
    ascending index order, since ["chunk_100000"] sorts before
    ["chunk_99999"]. *)
Lemma read_parquet_chunked_order_breaks :
  let run :=
    write_parquet_chunked writer long_table "base" 1 "snappy" true "pyarrow" ∅ in
  run.1 = Ok ((λ i, get_blob_url writer (chunk_blob_name "base" i))
                <$> seqZ 0 100001)
  ∧ String.ltb (chunk_blob_name "base" 100000) (chunk_blob_name "base" 99999)
    = true
  ∧ consumed "base" run.2 ≠ chunk_blob_name "base" <$> seqZ 0 100001.
Proof.
  split; [|split].
  - rewrite write_parquet_chunked_run
      by (done || apply supported_snappy || by left).
    rewrite long_table_len. done.
  - by vm_compute.
  - intros E. pose proof (Sorted_consumed "base"
      (write_parquet_chunked writer long_table "base" 1 "snappy" true
         "pyarrow" ∅).2) as Hs.
    rewrite E in Hs. apply Sorted_StronglySorted in Hs; [|apply _].
    replace (seqZ 0 100001) with (seqZ 0 99999 ++ seqZ (0 + 99999) 2) in Hs
      by (by rewrite <- seqZ_app).
    rewrite fmap_app in Hs. apply StronglySorted_app_1_r in Hs.
    rewrite seqZ_cons, fmap_cons in Hs by done.
    apply StronglySorted_cons in Hs as [Hs _].
    rewrite seqZ_cons, fmap_cons in Hs by done.
    apply Forall_cons in Hs as [Hs _]. by vm_compute in Hs.
Qed.

Lemma append_parquet_raw_name_overwrites_witness :
  ∃ b,
    to_parquet more_years "pyarrow" "snappy" = Some b
    ∧ pd_read_parquet b "pyarrow" None None = Some more_years
    ∧ append_parquet writer more_years "t" "snappy" "pyarrow" with_years
      = (Ok (get_blob_url writer ("t" +:+ ".parquet")),
         <["t" +:+ ".parquet" := b]> with_years)
    ∧ stored
        (append_parquet writer more_years "t" "snappy" "pyarrow"
           with_years).2
        ("t" +:+ ".parquet") more_years.
Proof.
  apply (append_parquet_raw_name_overwrites writer more_years "t" "snappy"
           "pyarrow" with_years (Parquet years "snappy"));
    [apply supported_snappy|reflexivity|reflexivity|reflexivity].
Defined.

(** The years 2024, 2023, 2023 in this order of the rows: the ascending
    list of the distinct years is 2023, 2024. *)
Lemma years_keys_pinned (keys : list (list Pd.value)) :
  StronglySorted tuple_asc keys →
  (∀ k, k ∈ keys ↔
        (Pd.VNull ∉ k)
        ∧ ∃ r, r ∈ Pd.rows years ∧ tuple_of (Pd.columns years) ["year"] r k) →
  keys = [[Pd.VInt 2023]; [Pd.VInt 2024]].
Proof.
  intros Hs Hspec.
  assert (∀ k, k ∈ keys → k = [Pd.VInt 2023] ∨ k = [Pd.VInt 2024]) as Hall.
  { intros k (_ & r & Hr & Hk)%Hspec. unfold tuple_of in Hk.
    apply Forall2_cons_inv_l in Hk as (v & k' & (i & Hc & Hv) & Hnil & ->).
    apply Forall2_nil_inv_l in Hnil as ->.
    assert (i = 0%nat) as -> by (by destruct i as [|[|[|i]]]).
    unfold years, table in Hr. simpl in Hr.
    rewrite !elem_of_cons, elem_of_nil in Hr.
    destruct Hr as [->|[->|[->|[]]]]; injection Hv as <-; auto. }
  assert (∀ y, (∃ r, r ∈ Pd.rows years ∧ r !! 0%nat = Some (Pd.VInt y)) →
               [Pd.VInt y] ∈ keys) as Hin.
  { intros y (r & Hr & Hy). apply Hspec. split.
    - intros [?|[]%elem_of_nil]%elem_of_cons. done.
    - exists r. split; [done|]. repeat constructor. by exists 0%nat. }
  assert ([Pd.VInt 2023] ∈ keys) as H23.
  { apply Hin. exists [Pd.VInt 2023; Pd.VInt 1; Pd.VInt 10].
    split; [|done]. unfold years, table. simpl. by right; left. }
  assert ([Pd.VInt 2024] ∈ keys) as H24.
  { apply Hin. exists [Pd.VInt 2024; Pd.VInt 1; Pd.VInt 30].
    split; [|done]. unfold years, table. simpl. by left. }
  assert (∀ a b, tuple_asc [Pd.VInt a] [Pd.VInt b] → a < b) as Hlt.
  { intros a b H. inversion H as [? ? ? ? Hv|? ? ? Ht]; subst.
    - by inversion Hv.
    - inversion Ht. }
  destruct keys as [|k1 keys]; [by apply elem_of_nil in H23|].
  apply StronglySorted_inv in Hs as [Hs H1]. rewrite Forall_forall in H1.
  assert (k1 = [Pd.VInt 2023]) as ->.
  { destruct (Hall k1 ltac:(left)) as [->| ->]; [done|].
    apply elem_of_cons in H23 as [?|H23]; [done|].
    apply H1, Hlt in H23. lia. }
  apply elem_of_cons in H24 as [?|H24]; [done|].
  destruct keys as [|k2 keys]; [by apply elem_of_nil in H24|].
  assert (k2 = [Pd.VInt 2024]) as ->.
  { destruct (Hall k2 ltac:(right; left)) as [->| ->]; [|done].
    specialize (H1 _ ltac:(left)). apply Hlt in H1. lia. }
  destruct keys as [|k3 keys]; [done|].
  apply StronglySorted_inv in Hs as [_ H2]. rewrite Forall_forall in H2.
  specialize (H2 k3 ltac:(left)).
  destruct (Hall k3 ltac:(right; right; left)) as [->| ->];
    apply Hlt in H2; lia.
Qed.

Lemma write_parquet_partitioned_sorted_witness :
  (write_parquet_partitioned writer years "base" ["year"] "snappy" true
     "pyarrow" ∅).1
  = Ok [get_blob_url writer "base/year=2023/data.parquet";
        get_blob_url writer "base/year=2024/data.parquet"].
Proof.
  assert (["year"] ≠ [] ∨ Pd.rows years = []) as Hby by (by left).
  destruct (write_parquet_partitioned_sorted writer years "base" ["year"]
              "snappy" "pyarrow" ∅ wf_years typed_years years_by Hby
              supported_snappy)
    as (keys & Hurls & _ & _ & Hsorted & Hspec & _).
  rewrite Hurls. by rewrite (years_keys_pinned keys Hsorted Hspec).
Defined.

(** ** Further examples *)


(** A flat write into the empty container without overwrite. *)
Lemma write_parquet_touches_one_blob_witness :
  ∃ final b,
    get_blob_url writer "t.parquet" = get_blob_url writer final
    ∧ to_parquet years "pyarrow" "snappy" = Some b
    ∧ ({[ "t.parquet" := Parquet years "snappy" ]} : gmap string (@blob runtime))
      = <[final := b]> ∅
    ∧ (false = false → (∅ : gmap string (@blob runtime)) !! final = None).
Proof.
  apply (proj2 (write_parquet_touches_one_blob writer years "t" "snappy" false
                  false "pyarrow" "" ∅)).
  vm_compute. reflexivity.
Defined.

(** A second flat write to a taken name, without overwrite. *)
Lemma write_parquet_conflict_witness :
  write_parquet writer more_years "t" "snappy" false false "pyarrow" ""
    with_years
  = (Raise (ResourceExistsError (ensure_extension "t")), with_years).
Proof.
  apply (write_parquet_conflict writer more_years "t" "snappy" "pyarrow" ""
           with_years); [apply supported_snappy|].
  exists (Parquet years "snappy"). vm_compute. reflexivity.
Defined.

Lemma write_parquet_timestamp_name_witness :
  ∃ stem b,
    ensure_extension "out/t" = stem +:+ ".parquet"
    ∧ to_parquet years "pyarrow" "snappy" = Some b
    ∧ write_parquet writer years "out/t" "snappy" true true "pyarrow"
        "20250102_030405" ∅
      = (Ok (get_blob_url writer
               (stem +:+ "_" +:+ "20250102_030405" +:+ ".parquet")),
         <[stem +:+ "_" +:+ "20250102_030405" +:+ ".parquet" := b]> ∅).
Proof.
  apply (write_parquet_timestamp_name writer years "out/t" "snappy" "pyarrow"
           "20250102_030405" ∅), supported_snappy.
Defined.

(** Three rows in chunks of two, with the name of the second chunk taken. *)
Lemma write_parquet_chunked_no_rollback_witness :
  ∃ st',
    write_parquet_chunked writer years "base" 2 "snappy" false "pyarrow"
      with_chunk_1
    = (Raise (ResourceExistsError (chunk_blob_name "base" 1)), st')
    ∧ (∀ i, 0 ≤ i < 1 →
         stored st' (chunk_blob_name "base" i)
           (Pd.mkDataFrame (Pd.columns years)
              (rows_between (Pd.rows years) (i * 2)
                 (Z.min ((i + 1) * 2) (Pd.len years)))))
    ∧ st' !! chunk_blob_name "base" 1 = Some Garbage
    ∧ (∀ name, (∀ i, 0 ≤ i < 1 → name ≠ chunk_blob_name "base" i) →
         st' !! name = with_chunk_1 !! name).
Proof.
  apply (write_parquet_chunked_no_rollback writer years "base" 2 "snappy"
           "pyarrow" with_chunk_1 1 Garbage);
    [lia|apply supported_snappy|compute_done|vm_compute; reflexivity|].
  intros i Hi. assert (i = 0) as -> by lia. vm_compute. reflexivity.
Defined.

Lemma chunk_blob_names_distinct_witness :
  (chunk_blob_name "base" 3 = chunk_blob_name "base" 7 → 3 = 7)
  ∧ Py.startswith (chunk_blob_name "base" 3) "base" = true
  ∧ Py.endswith (chunk_blob_name "base" 3) ".parquet" = true.
Proof. apply (chunk_blob_names_distinct "base" 3 7); lia. Defined.

Lemma write_parquet_partitioned_no_rows_witness :
  write_parquet_partitioned writer no_rows "base" ["a"] "snappy" true "pyarrow" ∅
  = (Ok [], ∅).
Proof.
  apply (write_parquet_partitioned_no_rows writer no_rows "base" ["a"] "snappy"
           true "pyarrow" ∅); [reflexivity|compute_done].
Defined.


(** Every chunk cut down to its first row. *)
Lemma read_parquet_chunked_process_witness :
  read_parquet_chunked "t" (Some (λ d, Ok (Pd.iloc d 0 1))) with_years
  = (Pd.concat [Pd.iloc years 0 1], with_years).
Proof.
  assert (consumed "t" with_years = ["t.parquet"]) as E
    by (vm_compute; reflexivity).
  apply (proj1 (read_parquet_chunked_process "t" (λ d, Ok (Pd.iloc d 0 1))
                  with_years [years]
                  ltac:(rewrite E; discriminate)
                  ltac:(rewrite E; repeat constructor;
                        exists (Parquet years "snappy"); split; reflexivity))).
  repeat constructor.
Defined.

Lemma delete_blob_after_write_witness :
  let final := ensure_extension "t" in
  let st1 :=
    (write_parquet writer years "t" "snappy" true false "pyarrow" "" ∅).2 in
  ∃ st2,
    delete_blob final st1 = (Ok true, st2)
    ∧ blob_exists final st2 = (Ok false, st2)
    ∧ read_parquet final None None "pyarrow" st2
      = (Raise (ResourceNotFoundError final), st2)
    ∧ (∀ other, other ≠ final →
         st2 !! other = (∅ : gmap string (@blob runtime)) !! other)
    ∧ ((∅ : gmap string (@blob runtime)) !! final = None → st2 = ∅)
    ∧ delete_blob final st2 = (Raise (ResourceNotFoundError final), st2).
Proof.
  apply (delete_blob_after_write writer years "t" "snappy" "pyarrow" "pyarrow"
           ∅), supported_snappy.
Defined.


Lemma read_parquet_partitioned_not_found_witness :
  read_parquet_partitioned "base" None ∅
  = (Raise (ValueError ("No parquet files found at: "
                          +:+ search_prefix "base" None)), ∅).
Proof.
  apply (read_parquet_partitioned_not_found "base" None ∅
           (empty_container_free _)).
Defined.

(** The three rows by year, written and read back. *)
Lemma read_parquet_partitioned_after_write_witness :
  let st' :=
    (write_parquet_partitioned writer years "base" ["year"] "snappy" true
       "pyarrow" ∅).2 in
  ∃ res,
    read_parquet_partitioned "base" None st' = (Ok res, st')
    ∧ Pd.columns res
      = List.filter (λ c, bool_decide (c ∉ ["year"])) (Pd.columns years)
          ++ ["year"]
    ∧ Pd.rows res ≡ₚ restored_row (Pd.columns years) ["year"] <$> Pd.rows years.
Proof.
  apply (read_parquet_partitioned_after_write writer years "base" ["year"]
           "snappy" "pyarrow" ∅).
  - apply wf_years.
  - apply typed_years.
  - apply NoDup_singleton.
  - discriminate.
  - apply years_by.
  - apply years_other_column.
  - discriminate.
  - apply years_no_null.
  - apply supported_snappy.
  - reflexivity.
  - intros col [->|[]%elem_of_nil]%elem_of_cons. split; reflexivity.
  - apply years_values_no_slash.
  - exact (empty_container_free _).
Defined.

(** Three chunks of one row, then one chunk of one row. *)
Lemma write_parquet_chunked_keeps_old_chunks_witness :
  let st1 :=
    (write_parquet_chunked writer years "base" 1 "snappy" true "pyarrow" ∅).2 in
  let st2 :=
    (write_parquet_chunked writer more_years "base" 1 "snappy" true "pyarrow"
       st1).2 in
  stored st2 (chunk_blob_name "base" 1)
    (Pd.iloc years (1 * 1) (Z.min ((1 + 1) * 1) (Pd.len years)))
  ∧ chunk_blob_name "base" 1 ∈ consumed "base" st2.
Proof.
  apply (write_parquet_chunked_keeps_old_chunks writer years more_years "base"
           1 1 "snappy" "snappy" "pyarrow" "pyarrow" ∅ 1);
    [lia|lia|apply supported_snappy|apply supported_snappy|compute_done].
Defined.

Lemma upload_names_keep_extension_witness :
  ∃ final,
    Py.endswith final ".html" = true
    ∧ AzureBlob.upload_html demo_account demo_upload_blob client "<p></p>"
        "page.html" None true false "" ∅
      = AzureBlob.upload_blob demo_account demo_upload_blob client "<p></p>"
          final None (Some "text/html") true None ∅
    ∧ final = "page.html".
Proof.
  destruct (proj2 (upload_names_keep_extension demo_upload_blob demo_to_csv
                     client years tt "<p></p>" "page.html" None true false ""
                     ∅)) as (final & Hext & Hrun & Hsame).
  exists final. split; [exact Hext|]. split; [exact Hrun|].
  apply Hsame; reflexivity.
Defined.

Lemma upload_dataframe_csv_timestamp_name_witness :
  AzureBlob.upload_dataframe_csv demo_account demo_upload_blob unit demo_to_csv
    client years "v1.2/report" None true true "20250102_030405" tt ∅
  = AzureBlob.upload_blob demo_account demo_upload_blob client
      (demo_to_csv years tt)
      ("v1" +:+ "_" +:+ "20250102_030405" +:+ "." +:+ "2/report" +:+ ".csv")
      None (Some "text/csv") true None ∅.
Proof.
  apply (proj2 (proj2 (upload_dataframe_csv_timestamp_name demo_upload_blob
                         demo_to_csv client years tt None true
                         "20250102_030405" ∅)) "v1" "2/report");
    reflexivity.
Defined.

End Examples.
